(** * Conversation-and-message client state of the chat front end

    A shallow embedding of the two React components that keep the
    conversation list, the active conversation, its message stream, the
    suggestion feed and the rename session:

    - [Chat]         the chat page, component [Chat] (load, select, create,
                     rename, delete, send, suggestions refresh);
    - [ChatSidebar]  frontend/src/components/ChatSidebar.tsx, the side
                     panel (load, select, create, send).

    Component state is a record with one field per [useState] cell.  A
    handler is a computation in a small state-and-log monad: it reads the
    values its closure captured from the render it belongs to, writes the
    live state through the setters, and logs every [fetch] it issues and
    every [console.error] it prints.  What the browser and the server
    contribute (localStorage, window.confirm, Date.now, the outcome of each
    request) is an explicit [World] argument.

    A run is one handler taken from its call to the point where every
    promise it started has settled, with no other handler interleaved; the
    DOM event methods ([preventDefault], [stopPropagation]) and the scroll
    effect do not touch component state and are left out. *)

From Stdlib Require Import ZArith List Bool String Ascii NArith Lia DecimalString.
Import ListNotations.
Open Scope Z_scope.

(** ** JavaScript values *)

(** A JS string is a sequence of UTF-16 code units. *)
Definition jsstring : Type := list N.

Definition lit (s : string) : jsstring :=
  List.map N_of_ascii (list_ascii_of_string s).

(** ECMAScript WhiteSpace and LineTerminator code points, the set that
    [String.prototype.trim] strips. *)
Definition isWhiteSpace (c : N) : bool :=
  ((c =? 0x09) || (c =? 0x0A) || (c =? 0x0B) || (c =? 0x0C) || (c =? 0x0D)
   || (c =? 0x20) || (c =? 0xA0) || (c =? 0x1680)
   || ((0x2000 <=? c) && (c <=? 0x200A))
   || (c =? 0x2028) || (c =? 0x2029) || (c =? 0x202F) || (c =? 0x205F)
   || (c =? 0x3000) || (c =? 0xFEFF))%N.

Fixpoint dropWhile {A : Type} (p : A -> bool) (l : list A) : list A :=
  match l with
  | [] => []
  | x :: l' => if p x then dropWhile p l' else l
  end.

Definition trimStart (s : jsstring) : jsstring := dropWhile isWhiteSpace s.
Definition trimEnd (s : jsstring) : jsstring :=
  rev (dropWhile isWhiteSpace (rev s)).
Definition trim (s : jsstring) : jsstring := trimEnd (trimStart s).

Definition whitespaceOnly (s : jsstring) : bool := forallb isWhiteSpace s.

(** Truthiness ([!x], [x || y], [x ? a : b]) at the types the components
    use it at. *)
Definition truthyString (s : jsstring) : bool :=
  match s with [] => false | _ :: _ => true end.

(** [string | null], as returned by [localStorage.getItem]. *)
Definition truthyToken (t : option jsstring) : bool :=
  match t with Some s => truthyString s | None => false end.

(** [number | null]: [null] and [0] are falsy. *)
Definition truthyId (i : option Z) : bool :=
  match i with Some n => negb (n =? 0) | None => false end.

(** [a || b] at [string | undefined] on the left. *)
Definition orString (a : option jsstring) (b : jsstring) : jsstring :=
  if truthyToken a then match a with Some s => s | None => b end else b.

(** [a === b] at [number | null] on the left and [number] on the right. *)
Definition strictEqId (a : option Z) (b : Z) : bool :=
  match a with Some n => n =? b | None => false end.

(** ** Data model *)

Inductive Role : Type := user | assistant | system.

Module Message.
Record t : Type := mk { id : Z; role : Role; content : jsstring }.
End Message.

Module Conversation.
  (** [messages] is declared [Message[]], but the components read it as
      [conversation.messages || []]: a record that arrives without the field
      is [None] here. *)
Record t : Type :=
    mk { id : Z; title : jsstring; messages : option (list Message.t) }.

  (** [{ ...c, title: v }] *)
Definition withTitle (c : t) (v : jsstring) : t :=
    mk (id c) v (messages c).

  (** [c.messages || []]; an array, even an empty one, is truthy. *)
Definition messagesOrEmpty (c : t) : list Message.t :=
    match messages c with Some ms => ms | None => [] end.
End Conversation.

(** ** The REST boundary *)

(** The requests the components issue.  The token and the ids are the values
    interpolated into the header and the URL, [null] included. *)
Inductive Request : Type :=
| GET_conversations (token : option jsstring)
| GET_suggestions (token : option jsstring)
| POST_conversations (token : option jsstring) (title : jsstring)
| DELETE_conversation (token : option jsstring) (id : Z)
| PATCH_conversation (token : option jsstring) (id : option Z) (title : jsstring)
| POST_message (token : option jsstring) (id : option Z) (content : jsstring).

(** What [await fetch(...)] followed by [await response.json()] can do:
    the fetch promise rejects, or it resolves to a response with an [ok]
    flag whose body parses to a value or fails to parse. *)
Inductive Response (A : Type) : Type :=
| Rejected
| Resolved (ok : bool) (json : option A).
Arguments Rejected {A}.
Arguments Resolved {A} ok json.

Inductive Event : Type :=
| Fetch (r : Request)
| ConsoleError (msg : jsstring).

Definition requests (tr : list Event) : list Request :=
  flat_map (fun e => match e with Fetch r => [r] | ConsoleError _ => [] end) tr.

(** The value a handler obtains from [response.ok] followed by
    [await response.json()]: present only when the promise resolved, the
    status was 2xx and the body parsed. *)
Definition delivered {A : Type} (resp : Response A) : option A :=
  match resp with
  | Resolved true (Some a) => Some a
  | _ => None
  end.

(** [response.ok] alone, for the handlers that never read the body. *)
Definition accepted {A : Type} (resp : Response A) : bool :=
  match resp with
  | Resolved true _ => true
  | _ => false
  end.

(** The two failures the handlers tell apart from success: the request
    never got an answer, or the answer was not 2xx. *)
Definition failed {A : Type} (resp : Response A) : Prop :=
  resp = Rejected \/ exists body, resp = Resolved false body.

(** Everything a handler run takes from outside the component. *)
Record World : Type := mkWorld {
  token : option jsstring;                      (* localStorage.getItem("token") *)
  confirm : bool;                               (* window.confirm(...) *)
  now : Z;                                      (* Date.now() *)
  listResponse : Response (list Conversation.t);       (* GET conversations/ *)
  suggestionsResponse : Response (list jsstring);      (* GET conversations/suggestions/ *)
  createResponse : Response Conversation.t;            (* POST conversations/ *)
  deleteResponse : Response unit;                      (* DELETE conversations/id/ *)
  patchResponse : Response Conversation.t;             (* PATCH conversations/id/ *)
  messageResponse : Response Message.t                 (* POST conversations/id/message/ *)
}.

(** ** Handler runs *)

(** A computation over component state [S]: from the live state to a
    result, the updated state and the events emitted, oldest first. *)
Definition Eff (S A : Type) : Type := S -> A * S * list Event.

Definition ret {S A : Type} (a : A) : Eff S A := fun s => (a, s, []).

Definition bind {S A B : Type} (m : Eff S A) (k : A -> Eff S B) : Eff S B :=
  fun s =>
    let '(a, s1, t1) := m s in
    let '(b, s2, t2) := k a s1 in
    (b, s2, t1 ++ t2).

Definition modify {S : Type} (f : S -> S) : Eff S unit :=
  fun s => (tt, f s, []).

Definition emit {S : Type} (e : Event) : Eff S unit :=
  fun s => (tt, s, [e]).

Definition fetch {S : Type} (r : Request) : Eff S unit := emit (Fetch r).

Definition consoleError {S : Type} (msg : string) : Eff S unit :=
  emit (ConsoleError (lit msg)).

Declare Scope eff_scope.
Delimit Scope eff_scope with eff.
Notation "m ;; k" := (bind m (fun _ => k))
  (at level 61, right associativity) : eff_scope.
Notation "'done'" := (ret tt) : eff_scope.

Definition finalState {S A : Type} (r : A * S * list Event) : S := snd (fst r).
Definition trace {S A : Type} (r : A * S * list Event) : list Event := snd r.

(** ** The chat page *)

Module Chat.

(** One field per [useState] cell of [Chat]. *)
Record State : Type := mkState {
  conversations : list Conversation.t;
  currentConversationId : option Z;
  messages : list Message.t;
  input : jsstring;
  loading : bool;
  suggestions : list jsstring;
  editingConversationId : option Z;
  editTitle : jsstring
}.

(** The state of the first render. *)
Definition initial : State := mkState [] None [] [] false [] None [].

Definition withConversations (v : list Conversation.t) (s : State) : State :=
  mkState v (currentConversationId s) (messages s) (input s) (loading s)
          (suggestions s) (editingConversationId s) (editTitle s).
Definition withCurrentConversationId (v : option Z) (s : State) : State :=
  mkState (conversations s) v (messages s) (input s) (loading s)
          (suggestions s) (editingConversationId s) (editTitle s).
Definition withMessages (v : list Message.t) (s : State) : State :=
  mkState (conversations s) (currentConversationId s) v (input s) (loading s)
          (suggestions s) (editingConversationId s) (editTitle s).
Definition withInput (v : jsstring) (s : State) : State :=
  mkState (conversations s) (currentConversationId s) (messages s) v (loading s)
          (suggestions s) (editingConversationId s) (editTitle s).
Definition withLoading (v : bool) (s : State) : State :=
  mkState (conversations s) (currentConversationId s) (messages s) (input s) v
          (suggestions s) (editingConversationId s) (editTitle s).
Definition withSuggestions (v : list jsstring) (s : State) : State :=
  mkState (conversations s) (currentConversationId s) (messages s) (input s)
          (loading s) v (editingConversationId s) (editTitle s).
Definition withEditingConversationId (v : option Z) (s : State) : State :=
  mkState (conversations s) (currentConversationId s) (messages s) (input s)
          (loading s) (suggestions s) v (editTitle s).
Definition withEditTitle (v : jsstring) (s : State) : State :=
  mkState (conversations s) (currentConversationId s) (messages s) (input s)
          (loading s) (suggestions s) (editingConversationId s) v.

(** The [useState] setters.  [setMessages] is only ever called with an
    updater function or a value; the updater form reads the live state. *)
Definition setConversations v : Eff State unit := modify (withConversations v).
Definition setCurrentConversationId v : Eff State unit :=
  modify (withCurrentConversationId v).
Definition setMessages v : Eff State unit := modify (withMessages v).
Definition updateMessages (f : list Message.t -> list Message.t) : Eff State unit :=
  modify (fun s => withMessages (f (messages s)) s).
Definition setInput v : Eff State unit := modify (withInput v).
Definition setLoading v : Eff State unit := modify (withLoading v).
Definition setSuggestions v : Eff State unit := modify (withSuggestions v).
Definition setEditingConversationId v : Eff State unit :=
  modify (withEditingConversationId v).
Definition setEditTitle v : Eff State unit := modify (withEditTitle v).

Section Handlers.
Local Open Scope eff_scope.

(** [r] is the render a handler closes over: every plain read of a state
    variable in the source is a read of [r], also after an [await] and in
    the handlers it calls.  [w] is the world of the run. *)
Variable r : State.
Variable w : World.

Definition fetchSuggestions : Eff State unit :=
  if negb (truthyToken (token w)) then done
  else
    fetch (GET_suggestions (token w)) ;;
    match suggestionsResponse w with
    | Rejected => consoleError "Error fetching suggestions:"
    | Resolved true (Some data) => setSuggestions data
    | Resolved true None => consoleError "Error fetching suggestions:"
    | Resolved false _ => done
    end.

Definition selectConversation (conversation : Conversation.t) : Eff State unit :=
  setCurrentConversationId (Some (Conversation.id conversation)) ;;
  setMessages (Conversation.messagesOrEmpty conversation).

Definition fetchConversations : Eff State unit :=
  if negb (truthyToken (token w)) then done
  else
    fetch (GET_conversations (token w)) ;;
    match listResponse w with
    | Rejected => consoleError "Error fetching conversations:"
    | Resolved true (Some data) =>
        setConversations data ;;
        match data with
        | first :: _ =>
            if negb (truthyId (currentConversationId r))
            then selectConversation first
            else done
        | [] => done
        end
    | Resolved true None => consoleError "Error fetching conversations:"
    | Resolved false _ => done
    end.

Definition deleteConversation (id : Z) : Eff State unit :=
  if negb (confirm w) then done
  else
    fetch (DELETE_conversation (token w) id) ;;
    match deleteResponse w with
    | Rejected => consoleError "Error deleting conversation:"
    | Resolved true _ =>
        setConversations
          (filter (fun c => negb (Conversation.id c =? id)) (conversations r)) ;;
        if strictEqId (currentConversationId r) id
        then setCurrentConversationId None ;; setMessages []
        else done
    | Resolved false _ => done
    end.

Definition createNewConversation : Eff State unit :=
  fetch (POST_conversations (token w) (lit "New Chat")) ;;
  match createResponse w with
  | Rejected => consoleError "Error creating conversation:"
  | Resolved true (Some newConv) =>
      setConversations (newConv :: conversations r) ;;
      selectConversation newConv
  | Resolved true None => consoleError "Error creating conversation:"
  | Resolved false _ => done
  end.

Definition startEditing (conv : Conversation.t) : Eff State unit :=
  setEditingConversationId (Some (Conversation.id conv)) ;;
  setEditTitle (Conversation.title conv).

(** The Cancel button of the rename form. *)
Definition cancelEditing : Eff State unit :=
  setEditingConversationId None.

Definition saveTitle : Eff State unit :=
  if negb (truthyId (editingConversationId r)) then done
  else
    fetch (PATCH_conversation (token w) (editingConversationId r) (editTitle r)) ;;
    match patchResponse w with
    | Rejected => consoleError "Error updating conversation title:"
    | Resolved true _ =>
        setConversations
          (map (fun c =>
                  if strictEqId (editingConversationId r) (Conversation.id c)
                  then Conversation.withTitle c (editTitle r)
                  else c)
               (conversations r)) ;;
        setEditingConversationId None ;;
        setEditTitle []
    | Resolved false _ => done
    end.

(** The reload and the refresh are started without [await]: both requests
    go out, list first, before either answer is handled.  The reload belongs
    to [r], where a conversation is active, so it never selects; what is left
    of the two writes different cells, and the order they settle in does not
    show in the final state. *)
Definition sendMessage (suggestionContent : option jsstring) : Eff State unit :=
  let contentToSend := orString suggestionContent (input r) in
  if negb (truthyString (trim contentToSend))
     || negb (truthyId (currentConversationId r))
  then done
  else
    let userMessage := Message.mk (now w) user contentToSend in
    updateMessages (fun prev => prev ++ [userMessage]) ;;
    setInput [] ;;
    setLoading true ;;
    fetch (POST_message (token w) (currentConversationId r)
                        (Message.content userMessage)) ;;
    match messageResponse w with
    | Rejected => consoleError "Error sending message:"
    | Resolved true (Some aiMessage) =>
        updateMessages (fun prev => prev ++ [aiMessage]) ;;
        fetchConversations ;;
        fetchSuggestions
    | Resolved true None => consoleError "Error sending message:"
    | Resolved false _ => done
    end ;;
    setLoading false.

End Handlers.

(** The user intents and effects that start a handler. *)
Inductive Op : Type :=
| OpLoad                                   (* fetchConversations *)
| OpRefreshSuggestions                     (* fetchSuggestions *)
| OpSelect (conversation : Conversation.t) (* click on a row *)
| OpCreate                                 (* "+ New Chat" *)
| OpStartEditing (conv : Conversation.t)   (* rename button of a row *)
| OpEditTitle (v : jsstring)               (* typing in the rename form *)
| OpSaveTitle                              (* submit of the rename form *)
| OpCancelEditing                          (* cancel button of the rename form *)
| OpDelete (id : Z)                        (* delete button of a row *)
| OpInput (v : jsstring)                   (* typing in the message box *)
| OpSend (suggestionContent : option jsstring). (* submit, or click on a suggestion *)

Definition handler (r : State) (w : World) (op : Op) : Eff State unit :=
  match op with
  | OpLoad => fetchConversations r w
  | OpRefreshSuggestions => fetchSuggestions w
  | OpSelect c => selectConversation c
  | OpCreate => createNewConversation r w
  | OpStartEditing c => startEditing c
  | OpEditTitle v => setEditTitle v
  | OpSaveTitle => saveTitle r w
  | OpCancelEditing => cancelEditing
  | OpDelete id => deleteConversation r w id
  | OpInput v => setInput v
  | OpSend sc => sendMessage r w sc
  end.

(** A handler started from the render of state [s] and run to completion
    before the next one starts. *)
Definition run (w : World) (op : Op) (s : State) : State * list Event :=
  let '(_, s', tr) := handler s w op s in (s', tr).

(** Handlers run one after the other, each in its own world. *)
Fixpoint runAll (script : list (World * Op)) (s : State) : State * list Event :=
  match script with
  | [] => (s, [])
  | (w, op) :: rest =>
      let '(s1, t1) := run w op s in
      let '(s2, t2) := runAll rest s1 in
      (s2, t1 ++ t2)
  end.

(** The row click sits on rows produced by [conversations.map]: the
  conversation it passes to [selectConversation] is one of the list. *)
Definition offered (s : State) (op : Op) : Prop :=
match op with
| OpSelect c => In c (conversations s)
| _ => True
end.

(** The test the component uses for "a conversation is active". *)
Definition hasActive (s : State) : bool := truthyId (currentConversationId s).

(** The active id, if non-null, names an element of the list. *)
Definition activeListed (s : State) : Prop :=
  forall cid, currentConversationId s = Some cid ->
              In cid (map Conversation.id (conversations s)).

(** The operations that end in a reload of the list: the load itself and a
  send, which reloads once its reply has arrived. *)
Definition reloads (op : Op) : bool :=
match op with
| OpLoad | OpSend _ => true
| _ => false
end.

(** Any list the server delivers still contains the id that is active. *)
Definition serverKeepsActive (w : World) (s : State) : Prop :=
forall data cid,
  delivered (listResponse w) = Some data ->
  currentConversationId s = Some cid ->
  In cid (map Conversation.id data).

End Chat.

(** ** The side panel (frontend/src/components/ChatSidebar.tsx) *)

Module ChatSidebar.

(** One field per [useState] cell of [ChatSidebar]: no suggestion feed and
    no rename session. *)
Record State : Type := mkState {
  conversations : list Conversation.t;
  currentConversationId : option Z;
  messages : list Message.t;
  input : jsstring;
  loading : bool
}.

Definition withConversations (v : list Conversation.t) (s : State) : State :=
  mkState v (currentConversationId s) (messages s) (input s) (loading s).
Definition withCurrentConversationId (v : option Z) (s : State) : State :=
  mkState (conversations s) v (messages s) (input s) (loading s).
Definition withMessages (v : list Message.t) (s : State) : State :=
  mkState (conversations s) (currentConversationId s) v (input s) (loading s).
Definition withInput (v : jsstring) (s : State) : State :=
  mkState (conversations s) (currentConversationId s) (messages s) v (loading s).
Definition withLoading (v : bool) (s : State) : State :=
  mkState (conversations s) (currentConversationId s) (messages s) (input s) v.

Definition setConversations v : Eff State unit := modify (withConversations v).
Definition setCurrentConversationId v : Eff State unit :=
  modify (withCurrentConversationId v).
Definition setMessages v : Eff State unit := modify (withMessages v).
Definition updateMessages (f : list Message.t -> list Message.t) : Eff State unit :=
  modify (fun s => withMessages (f (messages s)) s).
Definition setInput v : Eff State unit := modify (withInput v).
Definition setLoading v : Eff State unit := modify (withLoading v).

Section Handlers.
Local Open Scope eff_scope.

Variable r : State.
Variable w : World.

Definition selectConversation (conversation : Conversation.t) : Eff State unit :=
  setCurrentConversationId (Some (Conversation.id conversation)) ;;
  setMessages (Conversation.messagesOrEmpty conversation).

Definition fetchConversations : Eff State unit :=
  if negb (truthyToken (token w)) then done
  else
    fetch (GET_conversations (token w)) ;;
    match listResponse w with
    | Rejected => consoleError "Error fetching conversations:"
    | Resolved true (Some data) =>
        setConversations data ;;
        match data with
        | first :: _ =>
            if negb (truthyId (currentConversationId r))
            then selectConversation first
            else done
        | [] => done
        end
    | Resolved true None => consoleError "Error fetching conversations:"
    | Resolved false _ => done
    end.

Definition createNewConversation : Eff State unit :=
  fetch (POST_conversations (token w) (lit "New Chat")) ;;
  match createResponse w with
  | Rejected => consoleError "Error creating conversation:"
  | Resolved true (Some newConv) =>
      setConversations (newConv :: conversations r) ;;
      selectConversation newConv
  | Resolved true None => consoleError "Error creating conversation:"
  | Resolved false _ => done
  end.

Definition sendMessage : Eff State unit :=
  if negb (truthyString (trim (input r)))
     || negb (truthyId (currentConversationId r))
  then done
  else
    let userMessage := Message.mk (now w) user (input r) in
    updateMessages (fun prev => prev ++ [userMessage]) ;;
    setInput [] ;;
    setLoading true ;;
    fetch (POST_message (token w) (currentConversationId r)
                        (Message.content userMessage)) ;;
    match messageResponse w with
    | Rejected => consoleError "Error sending message:"
    | Resolved true (Some aiMessage) =>
        updateMessages (fun prev => prev ++ [aiMessage]) ;;
        fetchConversations
    | Resolved true None => consoleError "Error sending message:"
    | Resolved false _ => done
    end ;;
    setLoading false.

End Handlers.

(** What the side panel shows of a chat-page state. *)
Definition ofChat (s : Chat.State) : State :=
  mkState (Chat.conversations s) (Chat.currentConversationId s)
          (Chat.messages s) (Chat.input s) (Chat.loading s).

End ChatSidebar.

(** ** What the chat page renders and when it loads *)

Module ChatView.

(** [t || d] on strings. *)
Definition orDefault (t d : jsstring) : jsstring :=
  if truthyString t then t else d.


(** The chat area replaces the welcome text when [currentConversationId]
    is truthy. *)
Definition chatAreaShown (s : Chat.State) : bool :=
  truthyId (Chat.currentConversationId s).

(** The header of the chat area:
    [conversations.find((c) => c.id === currentConversationId)?.title || "Chat"]. *)
Definition headerTitle (s : Chat.State) : jsstring :=
  match find (fun c => strictEqId (Chat.currentConversationId s) (Conversation.id c))
             (Chat.conversations s) with
  | Some c => orDefault (Conversation.title c) (lit "Chat")
  | None => lit "Chat"
  end.

(** The suggestion grid above an empty stream:
    [messages.length === 0 && suggestions.length > 0]. *)
Definition suggestionPanel (s : Chat.State) : list jsstring :=
  if (List.length (Chat.messages s) =? 0)%nat
     && (0 <? List.length (Chat.suggestions s))%nat
  then Chat.suggestions s else [].

(** The chips above the message box:
    [messages.length > 0 && suggestions.length > 0], [suggestions.slice(0, 3)]. *)
Definition suggestionChips (s : Chat.State) : list jsstring :=
  if (0 <? List.length (Chat.messages s))%nat
     && (0 <? List.length (Chat.suggestions s))%nat
  then firstn 3 (Chat.suggestions s) else [].

(** The suggestions that have a button; both blocks sit inside the chat
    area. *)
Definition suggestionButtons (s : Chat.State) : list jsstring :=
  if chatAreaShown s then suggestionPanel s ++ suggestionChips s else [].


(** The mount effect, [useEffect(() => { fetchConversations();
    fetchSuggestions(); }, [])]: both handlers belong to the first render. *)
Definition mount (w : World) : Eff Chat.State unit :=
  (Chat.fetchConversations Chat.initial w ;; Chat.fetchSuggestions w)%eff.

End ChatView.

(** The side panel's effect on [isOpen]:
    [useEffect(() => { if (isOpen) fetchConversations(); }, [isOpen])]. *)
Definition sidebarOpenEffect (isOpen : bool) (r : ChatSidebar.State) (w : World)
  : Eff ChatSidebar.State unit :=
  if isOpen then ChatSidebar.fetchConversations r w else ret tt.

(** ** The other pages: documents, sign-up, log-out *)

(** Handlers of the other pages also raise alerts, navigate and write
    localStorage; they run in the same kind of monad over their own
    events. *)
Definition Act (E S A : Type) : Type := S -> A * S * list E.

Definition actRet {E S A : Type} (a : A) : Act E S A := fun s => (a, s, []).

Definition actBind {E S A B : Type} (m : Act E S A) (k : A -> Act E S B)
  : Act E S B :=
  fun s =>
    let '(a, s1, t1) := m s in
    let '(b, s2, t2) := k a s1 in
    (b, s2, t1 ++ t2).

Definition actModify {E S : Type} (f : S -> S) : Act E S unit :=
  fun s => (tt, f s, []).

Definition actEmit {E S : Type} (e : E) : Act E S unit :=
  fun s => (tt, s, [e]).

Declare Scope act_scope.
Delimit Scope act_scope with act.
Notation "m ;; k" := (actBind m (fun _ => k))
  (at level 61, right associativity) : act_scope.
Notation "'done'" := (actRet tt) : act_scope.

(** A [File] picked in the file input.  The page tests it for null and
    hands it to the form data; it never looks inside. *)
Record File : Type := mkFile { fileName : jsstring; fileBytes : list N }.

Module Document.
Record t : Type := mk {
  id : Z;
  title : jsstring;
  file : jsstring;
  uploaded_at : jsstring;
  is_processed : bool
}.
End Document.

Inductive PageRequest : Type :=
| GET_documents (token : option jsstring)
| POST_documents (token : option jsstring) (file : File) (title : jsstring)
| POST_process (token : option jsstring) (docId : Z)
| POST_signup (email password : jsstring).

Inductive PageEvent : Type :=
| PageFetch (q : PageRequest)
| Alert (msg : jsstring)                 (* alert(msg) *)
| PageConsoleError (msg : jsstring)      (* console.error(msg, error) *)
| PageConsoleLog (msg : jsstring)        (* console.log(msg, data) *)
| Navigate (path : jsstring)             (* navigate(path) *)
| ResetFileInput.                        (* fileInput.value = "" *)

Definition pageRequests (tr : list PageEvent) : list PageRequest :=
  flat_map (fun e => match e with PageFetch q => [q] | _ => [] end) tr.

Definition alerts (tr : list PageEvent) : list jsstring :=
  flat_map (fun e => match e with Alert m => [m] | _ => [] end) tr.

Definition navigations (tr : list PageEvent) : list jsstring :=
  flat_map (fun e => match e with Navigate p => [p] | _ => [] end) tr.

Module Documents.

Record World : Type := mkWorld {
  token : option jsstring;                         (* localStorage.getItem("token") *)
  documentsResponse : Response (list Document.t);  (* GET documents/ *)
  uploadResponse : Response unit;                  (* POST documents/ *)
  processResponse : Response unit                  (* POST documents/id/process/ *)
}.

(** One field per [useState] cell of [Documents]. *)
Record State : Type := mkState {
  documents : list Document.t;
  uploading : bool;
  processingId : option Z;
  file : option File;
  title : jsstring
}.

Definition initial : State := mkState [] false None None [].

Definition withDocuments (v : list Document.t) (s : State) : State :=
  mkState v (uploading s) (processingId s) (file s) (title s).
Definition withUploading (v : bool) (s : State) : State :=
  mkState (documents s) v (processingId s) (file s) (title s).
Definition withProcessingId (v : option Z) (s : State) : State :=
  mkState (documents s) (uploading s) v (file s) (title s).
Definition withFile (v : option File) (s : State) : State :=
  mkState (documents s) (uploading s) (processingId s) v (title s).
Definition withTitle (v : jsstring) (s : State) : State :=
  mkState (documents s) (uploading s) (processingId s) (file s) v.

Definition setDocuments v : Act PageEvent State unit := actModify (withDocuments v).
Definition setUploading v : Act PageEvent State unit := actModify (withUploading v).
Definition setProcessingId v : Act PageEvent State unit :=
  actModify (withProcessingId v).
Definition setFile v : Act PageEvent State unit := actModify (withFile v).
Definition setTitle v : Act PageEvent State unit := actModify (withTitle v).

Definition consoleError (msg : string) : Act PageEvent State unit :=
  actEmit (PageConsoleError (lit msg)).
Definition alert (msg : string) : Act PageEvent State unit :=
  actEmit (Alert (lit msg)).
Definition fetch (q : PageRequest) : Act PageEvent State unit :=
  actEmit (PageFetch q).

Section Handlers.
Local Open Scope act_scope.

(** [r] is the render the handler closes over, [w] the world of the run. *)
Variable r : State.
Variable w : World.

Definition fetchDocuments : Act PageEvent State unit :=
  fetch (GET_documents (token w)) ;;
  match documentsResponse w with
  | Rejected => consoleError "Error fetching documents:"
  | Resolved true (Some data) => setDocuments data
  | Resolved true None => consoleError "Error fetching documents:"
  | Resolved false _ => done
  end.

Definition handleProcess (docId : Z) : Act PageEvent State unit :=
  setProcessingId (Some docId) ;;
  fetch (POST_process (token w) docId) ;;
  match processResponse w with
  | Rejected => consoleError "Error processing document:"
  | Resolved true _ => fetchDocuments
  | Resolved false _ => alert "Processing failed"
  end ;;
  setProcessingId None.

(** [!file || !title]: a [File] object is truthy, an empty title is not.
    The element with id "file-upload" is the page's own file input. *)
Definition handleUpload : Act PageEvent State unit :=
  match file r with
  | None => done
  | Some picked =>
      if negb (truthyString (title r)) then done
      else
        setUploading true ;;
        fetch (POST_documents (token w) picked (title r)) ;;
        match uploadResponse w with
        | Rejected => consoleError "Error uploading:"
        | Resolved true _ =>
            setTitle [] ;;
            setFile None ;;
            actEmit ResetFileInput ;;
            fetchDocuments
        | Resolved false _ => alert "Upload failed"
        end ;;
        setUploading false
  end.

End Handlers.

Inductive Op : Type :=
| OpMount                          (* useEffect(() => { fetchDocuments(); }, []) *)
| OpTitle (v : jsstring)           (* typing in the title box *)
| OpPick (f : option File)         (* setFile(e.target.files?.[0] || null) *)
| OpUpload                         (* submit of the upload form *)
| OpProcess (docId : Z).           (* "Process Again" on a row *)

Definition handler (r : State) (w : World) (op : Op) : Act PageEvent State unit :=
  match op with
  | OpMount => fetchDocuments w
  | OpTitle v => setTitle v
  | OpPick f => setFile f
  | OpUpload => handleUpload r w
  | OpProcess docId => handleProcess w docId
  end.

Definition run (w : World) (op : Op) (s : State) : State * list PageEvent :=
  let '(_, s', tr) := handler s w op s in (s', tr).

(** The token a request of these pages carries, if it carries one. *)
Definition requestToken (q : PageRequest) : option (option jsstring) :=
  match q with
  | GET_documents t | POST_documents t _ _ | POST_process t _ => Some t
  | POST_signup _ _ => None
  end.

End Documents.

(** ** localStorage and the credential *)

Fixpoint jsEqb (a b : jsstring) : bool :=
  match a, b with
  | [], [] => true
  | x :: a', y :: b' => (x =? y)%N && jsEqb a' b'
  | _, _ => false
  end.

(** localStorage as its three methods show it. *)
Definition Storage : Type := jsstring -> option jsstring.

Definition getItem (k : jsstring) (st : Storage) : option jsstring := st k.
Definition setItem (k v : jsstring) (st : Storage) : Storage :=
  fun k' => if jsEqb k' k then Some v else st k'.
Definition removeItem (k : jsstring) (st : Storage) : Storage :=
  fun k' => if jsEqb k' k then None else st k'.
Definition emptyStorage : Storage := fun _ => None.

(** [String(n)] on an integer below 10^21 in magnitude: its decimal
    digits. *)
Definition numberToString (n : Z) : jsstring :=
  lit (NilZero.string_of_int (Z.to_int n)).

(** The world a chat-page run sees when localStorage is [st]. *)
Definition worldWith (st : Storage) (w : World) : World :=
  mkWorld (getItem (lit "token") st) (confirm w) (now w) (listResponse w)
          (suggestionsResponse w) (createResponse w) (deleteResponse w)
          (patchResponse w) (messageResponse w).

Module Layout.

(** [handleLogout] of the layout header. *)
Definition handleLogout : Act PageEvent Storage unit :=
  (actModify (removeItem (lit "token")) ;;
   actModify (removeItem (lit "user_id")) ;;
   actEmit (Navigate (lit "/login")))%act.

End Layout.

Module Signup.

(** The JSON body of the sign-up answer: [token] and [user_id] on success,
    [error] on refusal; a field may be missing. *)
Record Body : Type := mkBody {
  token : option jsstring;
  user_id : option Z;
  error : option jsstring
}.

(** What [localStorage.setItem(key, v)] stores for a field: its string
    form, "undefined" for a missing one. *)
Definition storedString (v : option jsstring) : jsstring :=
  match v with Some x => x | None => lit "undefined" end.
Definition storedNumber (v : option Z) : jsstring :=
  match v with Some n => numberToString n | None => lit "undefined" end.

(** One field per [useState] cell of [Signup]. *)
Record Form : Type := mkForm {
  email : jsstring;
  password : jsstring;
  confirmPassword : jsstring;
  errorShown : jsstring              (* the cell [error] *)
}.

(** The page together with the browser's localStorage. *)
Record State : Type := mkState { form : Form; storage : Storage }.

Definition setError (v : jsstring) : Act PageEvent State unit :=
  actModify (fun s =>
    mkState (mkForm (email (form s)) (password (form s))
                    (confirmPassword (form s)) v)
            (storage s)).
Definition storeItem (k v : jsstring) : Act PageEvent State unit :=
  actModify (fun s => mkState (form s) (setItem k v (storage s))).

Section Handlers.
Local Open Scope act_scope.

Variable r : Form.
Variable signupResponse : Response Body.

(** The body is read before the status is looked at: an answer whose body
    does not parse ends in the catch clause whatever its status. *)
Definition handleSubmit : Act PageEvent State unit :=
  setError [] ;;
  if negb (jsEqb (password r) (confirmPassword r))
  then setError (lit "Passwords don't match")
  else
    actEmit (PageFetch (POST_signup (email r) (password r))) ;;
    match signupResponse with
    | Rejected => setError (lit "Network error. Please try again.")
    | Resolved _ None => setError (lit "Network error. Please try again.")
    | Resolved true (Some data) =>
        actEmit (PageConsoleLog (lit "Signup successful:")) ;;
        storeItem (lit "token") (storedString (token data)) ;;
        storeItem (lit "user_id") (storedNumber (user_id data)) ;;
        actEmit (Navigate (lit "/chat"))
    | Resolved false (Some data) =>
        setError (orString (error data) (lit "Signup failed"))
    end.

End Handlers.

Definition run (resp : Response Body) (s : State) : State * list PageEvent :=
  let '(_, s', tr) := handleSubmit (form s) resp s in (s', tr).

End Signup.

(** ** How a message's code is rendered

    The [code] component the chat page hands to the markdown renderer
    decides between an inline span and a titled block from the class name
    the renderer passes. *)

Module CodeBlock.

(** [s.startsWith(p)] *)
Fixpoint startsWith (p s : jsstring) : bool :=
  match p, s with
  | [], _ => true
  | _ :: _, [] => false
  | x :: p', y :: s' => (x =? y)%N && startsWith p' s'
  end.

(** [s.includes(p)] *)
Fixpoint includes (p s : jsstring) : bool :=
  startsWith p s
  || match s with
     | [] => false
     | _ :: s' => includes p s'
     end.

(** The class [\w]: ASCII letters, digits and the underscore. *)
Definition isWordChar (c : N) : bool :=
  (((0x30 <=? c) && (c <=? 0x39)) || ((0x41 <=? c) && (c <=? 0x5A))
   || (c =? 0x5F) || ((0x61 <=? c) && (c <=? 0x7A)))%N.

Fixpoint takeWhile {A : Type} (p : A -> bool) (l : list A) : list A :=
  match l with
  | [] => []
  | x :: l' => if p x then x :: takeWhile p l' else []
  end.

Definition languagePrefix : jsstring := lit "language-".

(** [/language-(\w+)/] tried at the start of [s]: the prefix, then the
    longest run of word characters, which must not be empty.  The result is
    group 1. *)
Definition matchHere (s : jsstring) : option jsstring :=
  if startsWith languagePrefix s
  then match takeWhile isWordChar (skipn (List.length languagePrefix) s) with
       | [] => None
       | c :: g => Some (c :: g)
       end
  else None.

(** [/language-(\w+)/.exec(s)]: the leftmost position where the pattern
    matches; the result is group 1 of that match. *)
Fixpoint exec (s : jsstring) : option jsstring :=
  match matchHere s with
  | Some g => Some g
  | None => match s with
            | [] => None
            | _ :: s' => exec s'
            end
  end.

(** [const match = /language-(\w+)/.exec(className || "")] *)
Definition matchOf (className : option jsstring) : option jsstring :=
  exec (orString className []).

(** [!match && !className?.includes("language-")] *)
Definition isInline (className : option jsstring) : bool :=
  match matchOf className with
  | Some _ => false
  | None => negb (match className with
                  | Some cn => includes languagePrefix cn
                  | None => false
                  end)
  end.


End CodeBlock.

(** A script the page and the server allow: every operation is offered by
    the state it starts from, and the lists the server delivers to the
    operations that reload still contain the id active at that moment. *)
Fixpoint consistentScript (script : list (World * Chat.Op)) (s : Chat.State)
  : Prop :=
  match script with
  | [] => True
  | (w, op) :: rest =>
      Chat.offered s op
      /\ (Chat.reloads op = true -> Chat.serverKeepsActive w s)
      /\ consistentScript rest (fst (Chat.run w op s))
  end.

(** ** Sample data

    The scenario of the specification: a signed-in user, conversation 7,
    the draft "Hello", and a server that answers every request. *)

Definition sampleToken : option jsstring := Some (lit "9f3c").

Definition greeting : Message.t := Message.mk 41 user (lit "Hi there").
Definition answer : Message.t := Message.mk 42 assistant (lit "How can I help?").
Definition serverReply : Message.t := Message.mk 43 assistant (lit "Hello to you").

Definition conv7 : Conversation.t :=
  Conversation.mk 7 (lit "Trip plan") (Some [greeting; answer]).
Definition conv8 : Conversation.t :=
  Conversation.mk 8 (lit "Budget") (Some []).
(** A create response: the new conversation arrives without [messages]. *)
Definition conv9 : Conversation.t :=
  Conversation.mk 9 (lit "New Chat") None.
Definition conv10 : Conversation.t :=
  Conversation.mk 10 (lit "New Chat") None.

Definition sampleSuggestions : list jsstring :=
  [lit "Summarise my documents"; lit "What changed last week?"].

Definition servedWorld : World :=
  mkWorld sampleToken true 1700000000000
          (Resolved true (Some [conv7; conv8]))
          (Resolved true (Some sampleSuggestions))
          (Resolved true (Some conv9))
          (Resolved true None)
          (Resolved true (Some (Conversation.withTitle conv7 (lit "Rome"))))
          (Resolved true (Some serverReply)).

(** The same world with the server unreachable. *)
Definition offlineWorld : World :=
  mkWorld sampleToken true 1700000000000
          Rejected Rejected Rejected Rejected Rejected Rejected.

(** The same world with the server answering 500 to everything. *)
Definition erroringWorld : World :=
  mkWorld sampleToken true 1700000000000
          (Resolved false None) (Resolved false None) (Resolved false None)
          (Resolved false None) (Resolved false None) (Resolved false None).

(** Signed out: no token in localStorage, and a server that answers 401. *)
Definition signedOutWorld : World :=
  mkWorld None true 1700000000000
          (Resolved false None) (Resolved false None) (Resolved false None)
          (Resolved false None) (Resolved false None) (Resolved false None).

(** Conversation 7 was deleted from another session: the server lists 8 only. *)
Definition prunedWorld : World :=
  mkWorld sampleToken true 1700000000000
          (Resolved true (Some [conv8]))
          (Resolved true (Some sampleSuggestions))
          (Resolved true (Some conv9))
          (Resolved true None)
          (Resolved false None)
          (Resolved true (Some serverReply)).

(** The user declines the confirmation dialog. *)
Definition decliningWorld : World :=
  mkWorld sampleToken false 1700000000000
          (Resolved true (Some [conv7; conv8]))
          (Resolved true (Some sampleSuggestions))
          (Resolved true (Some conv9))
          (Resolved true None)
          (Resolved true (Some conv7))
          (Resolved true (Some serverReply)).

(** Conversation 7 is active with an empty stream and the draft "Hello". *)
Definition chatting : Chat.State :=
  Chat.mkState [conv7; conv8] (Some 7) [] (lit "Hello") false [] None [].

(** Conversation 7 is active and its title is being edited to "Rome". *)
Definition renaming : Chat.State :=
  Chat.mkState [conv7; conv8] (Some 7) [greeting; answer] [] false
               sampleSuggestions (Some 7) (lit "Rome").

(** The token a request carries in its [Authorization] header. *)
Definition requestToken (q : Request) : option jsstring :=
  match q with
  | GET_conversations t | GET_suggestions t | POST_conversations t _
  | DELETE_conversation t _ | PATCH_conversation t _ _ | POST_message t _ _ => t
  end.


(** Conversation 7 is active, its stream is shown, and the feed is loaded. *)
Definition reading : Chat.State :=
  Chat.mkState [conv7; conv8] (Some 7) [greeting; answer] (lit "Hello") false
               (sampleSuggestions ++ [lit "Plan a trip"; lit "Write a summary"])
               None [].

(** Sample data for the other pages. *)

Definition handbook : Document.t :=
  Document.mk 3 (lit "Handbook") (lit "/media/handbook.pdf")
              (lit "2025-01-10T09:30:00Z") false.
Definition minutes : Document.t :=
  Document.mk 4 (lit "Minutes") (lit "/media/minutes.pdf")
              (lit "2025-01-11T16:05:00Z") true.

Definition pickedFile : File := mkFile (lit "minutes.pdf") [37; 80; 68; 70]%N.

Definition docsServed : Documents.World :=
  Documents.mkWorld sampleToken (Resolved true (Some [handbook; minutes]))
                    (Resolved true None) (Resolved true None).
Definition docsRefused : Documents.World :=
  Documents.mkWorld sampleToken (Resolved false None)
                    (Resolved false None) (Resolved false None).
Definition docsOffline : Documents.World :=
  Documents.mkWorld sampleToken Rejected Rejected Rejected.

(** The upload form filled in, one document listed. *)
Definition filledIn : Documents.State :=
  Documents.mkState [handbook] false None (Some pickedFile) (lit "Minutes").

Definition signupForm : Signup.Form :=
  Signup.mkForm (lit "ada@example.org") (lit "s3cret") (lit "s3cret") [].
Definition mistypedForm : Signup.Form :=
  Signup.mkForm (lit "ada@example.org") (lit "s3cret") (lit "s3cert") [].
Definition welcomeBody : Signup.Body :=
  Signup.mkBody (Some (lit "9f3c")) (Some 12) None.
Definition refusalBody : Signup.Body :=
  Signup.mkBody None None (Some (lit "Email already registered")).

(** * Properties *)

(** ** [trim] and truthiness *)

Lemma dropWhile_nil_iff {A : Type} (p : A -> bool) (l : list A) :
  dropWhile p l = [] <-> forallb p l = true.
Proof.
  induction l as [|x l IH]; simpl.
  - split; reflexivity.
  - destruct (p x); simpl.
    + exact IH.
    + split; discriminate.
Qed.

Lemma dropWhile_all_nil {A : Type} (p : A -> bool) (l : list A) :
  forallb p (dropWhile p l) = true -> dropWhile p l = [].
Proof.
  induction l as [|x l IH]; simpl; [reflexivity|].
  destruct (p x) eqn:Hx; [exact IH|].
  simpl. rewrite Hx. discriminate.
Qed.

Lemma forallb_rev {A : Type} (p : A -> bool) (l : list A) :
  forallb p (rev l) = forallb p l.
Proof.
  induction l as [|x l IH]; simpl; [reflexivity|].
  rewrite forallb_app, IH. simpl. rewrite andb_true_r. apply andb_comm.
Qed.

Lemma trim_nil_iff (s : jsstring) :
  trim s = [] <-> whitespaceOnly s = true.
Proof.
  unfold trim, trimEnd, trimStart, whitespaceOnly. split.
  - intros H.
    apply (f_equal (@rev N)) in H. rewrite rev_involutive in H. simpl in H.
    apply dropWhile_nil_iff in H. rewrite forallb_rev in H.
    apply dropWhile_all_nil in H. now apply dropWhile_nil_iff.
  - intros H. apply dropWhile_nil_iff in H. rewrite H. reflexivity.
Qed.

Lemma truthy_trim (s : jsstring) :
  truthyString (trim s) = negb (whitespaceOnly s).
Proof.
  destruct (whitespaceOnly s) eqn:E.
  - apply trim_nil_iff in E. rewrite E. reflexivity.
  - destruct (trim s) eqn:T; [|reflexivity].
    apply trim_nil_iff in T. congruence.
Qed.

Lemma truthyId_true (i : option Z) :
  truthyId i = true <-> exists n, i = Some n /\ n <> 0.
Proof.
  destruct i as [n|]; simpl.
  - rewrite negb_true_iff, Z.eqb_neq. split.
    + intros H. now exists n.
    + intros [m [E H]]. now inversion E; subst.
  - split; [discriminate | intros [m [E _]]; discriminate].
Qed.

Lemma requests_app (t1 t2 : list Event) :
  requests (t1 ++ t2) = requests t1 ++ requests t2.
Proof. unfold requests. apply flat_map_app. Qed.

Lemma failed_not_delivered {A : Type} (resp : Response A) :
  failed resp -> delivered resp = None.
Proof. intros [-> | [body ->]]; reflexivity. Qed.

Lemma failed_not_accepted {A : Type} (resp : Response A) :
  failed resp -> accepted resp = false.
Proof. intros [-> | [body ->]]; reflexivity. Qed.

(** ** Loading the conversation list *)

Section Load.
Variables (r s : Chat.State) (w : World).

Lemma fetchConversations_no_token :
  truthyToken (token w) = false ->
  Chat.fetchConversations r w s = (tt, s, []).
Proof. intros H. unfold Chat.fetchConversations. rewrite H. reflexivity. Qed.

Lemma fetchConversations_delivered (data : list Conversation.t) :
  truthyToken (token w) = true ->
  delivered (listResponse w) = Some data ->
  Chat.fetchConversations r w s =
    (tt,
     match data with
     | first :: _ =>
         if Chat.hasActive r then Chat.withConversations data s
         else Chat.withMessages (Conversation.messagesOrEmpty first)
                (Chat.withCurrentConversationId (Some (Conversation.id first))
                   (Chat.withConversations data s))
     | [] => Chat.withConversations data s
     end,
     [Fetch (GET_conversations (token w))]).
Proof.
  intros Ht Hd. unfold Chat.fetchConversations, Chat.hasActive. rewrite Ht.
  destruct (listResponse w) as [|[|] [d|]]; try discriminate.
  injection Hd as ->.
  destruct data as [|first rest]; [reflexivity|].
  destruct (truthyId (Chat.currentConversationId r)); reflexivity.
Qed.

Lemma fetchConversations_not_delivered :
  delivered (listResponse w) = None ->
  exists tr, Chat.fetchConversations r w s = (tt, s, tr)
             /\ requests tr = if truthyToken (token w)
                              then [GET_conversations (token w)] else [].
Proof.
  intros Hd. unfold Chat.fetchConversations.
  destruct (truthyToken (token w)); simpl.
  - destruct (listResponse w) as [|[|] [d|]]; try discriminate;
      eexists; split; reflexivity.
  - eexists; split; reflexivity.
Qed.

Lemma fetchSuggestions_no_token :
  truthyToken (token w) = false ->
  Chat.fetchSuggestions w s = (tt, s, []).
Proof. intros H. unfold Chat.fetchSuggestions. rewrite H. reflexivity. Qed.

Lemma fetchSuggestions_delivered (data : list jsstring) :
  truthyToken (token w) = true ->
  delivered (suggestionsResponse w) = Some data ->
  Chat.fetchSuggestions w s =
    (tt, Chat.withSuggestions data s, [Fetch (GET_suggestions (token w))]).
Proof.
  intros Ht Hd. unfold Chat.fetchSuggestions. rewrite Ht.
  destruct (suggestionsResponse w) as [|[|] [d|]]; try discriminate.
  injection Hd as ->. reflexivity.
Qed.

Lemma fetchSuggestions_not_delivered :
  delivered (suggestionsResponse w) = None ->
  exists tr, Chat.fetchSuggestions w s = (tt, s, tr)
             /\ requests tr = if truthyToken (token w)
                              then [GET_suggestions (token w)] else [].
Proof.
  intros Hd. unfold Chat.fetchSuggestions.
  destruct (truthyToken (token w)); simpl.
  - destruct (suggestionsResponse w) as [|[|] [d|]]; try discriminate;
      eexists; split; reflexivity.
  - eexists; split; reflexivity.
Qed.

End Load.

(** C4.  A successful load replaces the whole local list by the list the
    server returned, in the server's order.  If no conversation was active
    and that list is non-empty, its first element becomes the active one and
    the message stream becomes that element's messages; otherwise the active
    id and the stream stay as they were.  When the request fails (no answer,
    or an answer that is not 2xx) the state, the list included, is left
    unchanged. *)
Theorem load_replaces_list (w : World) (s : Chat.State) :
  (forall data,
      truthyToken (token w) = true ->
      delivered (listResponse w) = Some data ->
      let s' := fst (Chat.run w Chat.OpLoad s) in
      Chat.conversations s' = data
      /\ (forall first rest,
             Chat.hasActive s = false -> data = first :: rest ->
             Chat.currentConversationId s' = Some (Conversation.id first)
             /\ Chat.messages s' = Conversation.messagesOrEmpty first)
      /\ (Chat.hasActive s = true \/ data = [] ->
          Chat.currentConversationId s' = Chat.currentConversationId s
          /\ Chat.messages s' = Chat.messages s)
      /\ requests (snd (Chat.run w Chat.OpLoad s)) = [GET_conversations (token w)])
  /\ (failed (listResponse w) -> fst (Chat.run w Chat.OpLoad s) = s).
Proof.
  split.
  - intros data Ht Hd. unfold Chat.run, Chat.handler.
    rewrite (fetchConversations_delivered s s w data Ht Hd). cbn.
    repeat split.
    + destruct data; [reflexivity|]. destruct (Chat.hasActive s); reflexivity.
    + subst data. rewrite H. reflexivity.
    + subst data. rewrite H. reflexivity.
    + destruct H as [H | ->]; [|reflexivity].
      rewrite H. destruct data; reflexivity.
    + destruct H as [H | ->]; [|reflexivity].
      rewrite H. destruct data; reflexivity.
  - intros Hf. apply failed_not_delivered in Hf.
    destruct (fetchConversations_not_delivered s s w Hf) as [tr [E _]].
    unfold Chat.run, Chat.handler. rewrite E. reflexivity.
Qed.

Lemma load_replaces_list_witness :
  Chat.conversations (fst (Chat.run servedWorld Chat.OpLoad Chat.initial))
    = [conv7; conv8]
  /\ Chat.currentConversationId (fst (Chat.run servedWorld Chat.OpLoad Chat.initial))
    = Some 7
  /\ Chat.messages (fst (Chat.run servedWorld Chat.OpLoad Chat.initial))
    = [greeting; answer]
  /\ fst (Chat.run offlineWorld Chat.OpLoad chatting) = chatting.
Proof.
  pose proof (proj1 (load_replaces_list servedWorld Chat.initial)
                [conv7; conv8] eq_refl eq_refl) as [Hl [Hsel _]].
  destruct (Hsel conv7 [conv8] eq_refl eq_refl) as [Hid Hms].
  split; [exact Hl|]. split; [exact Hid|]. split; [exact Hms|].
  apply (proj2 (load_replaces_list offlineWorld chatting)).
  left. reflexivity.
Defined.

(** ** Selecting a conversation *)

(** C10.  Selecting is total and touches nothing but the active id and the
    stream: it issues no request and logs no error, sets the active id to
    the conversation's id and the stream to exactly its messages, or to the
    empty list when the record carries no messages (as the record a
    successful create hands to it may).  Selecting [x] and then [y] leaves
    exactly [y]'s messages. *)
Theorem select_total (w : World) (s : Chat.State) (c x y : Conversation.t) :
  let s' := fst (Chat.run w (Chat.OpSelect c) s) in
  let s2 := fst (Chat.run w (Chat.OpSelect y)
                   (fst (Chat.run w (Chat.OpSelect x) s))) in
  snd (Chat.run w (Chat.OpSelect c) s) = []
  /\ Chat.currentConversationId s' = Some (Conversation.id c)
  /\ Chat.messages s' = match Conversation.messages c with
                        | Some ms => ms
                        | None => []
                        end
  /\ s' = Chat.mkState (Chat.conversations s) (Chat.currentConversationId s')
            (Chat.messages s') (Chat.input s) (Chat.loading s)
            (Chat.suggestions s) (Chat.editingConversationId s) (Chat.editTitle s)
  /\ Chat.currentConversationId s2 = Some (Conversation.id y)
  /\ Chat.messages s2 = Conversation.messagesOrEmpty y
  /\ (delivered (createResponse w) = Some c ->
      Conversation.messages c = None ->
      Chat.messages (fst (Chat.run w Chat.OpCreate s)) = []).
Proof.
  cbn. unfold Conversation.messagesOrEmpty.
  split; [reflexivity|]. split; [reflexivity|]. split; [reflexivity|].
  split; [reflexivity|]. split; [reflexivity|]. split; [reflexivity|].
  intros Hd Hm. unfold Chat.run, Chat.handler, Chat.createNewConversation.
  destruct (createResponse w) as [|[|] [d|]]; try discriminate.
  injection Hd as ->. cbn. unfold Conversation.messagesOrEmpty.
  rewrite Hm. reflexivity.
Qed.

Lemma select_total_witness :
  Chat.messages (fst (Chat.run servedWorld Chat.OpCreate chatting)) = [].
Proof.
  apply (select_total servedWorld chatting conv9 conv7 conv8); reflexivity.
Defined.

(** ** Sending a message *)

Section Send.
Variables (w : World) (s : Chat.State) (suggestionContent : option jsstring).

Let contentToSend : jsstring := orString suggestionContent (Chat.input s).
Let userMessage : Message.t := Message.mk (now w) user contentToSend.
Let post : Request :=
  POST_message (token w) (Chat.currentConversationId s) contentToSend.

(** The state right after the synchronous part of [sendMessage]. *)
Let optimistic : Chat.State :=
  Chat.withLoading true
    (Chat.withInput []
       (Chat.withMessages (Chat.messages s ++ [userMessage]) s)).

Lemma sendMessage_guard :
  whitespaceOnly contentToSend = true \/ Chat.hasActive s = false ->
  Chat.sendMessage s w suggestionContent s = (tt, s, []).
Proof.
  intros H. unfold Chat.sendMessage. fold contentToSend.
  rewrite truthy_trim, negb_involutive.
  destruct H as [-> | H]; [reflexivity|].
  unfold Chat.hasActive in H. rewrite H, orb_true_r. reflexivity.
Qed.

Lemma sendMessage_delivered (aiMessage : Message.t) :
  whitespaceOnly contentToSend = false ->
  Chat.hasActive s = true ->
  delivered (messageResponse w) = Some aiMessage ->
  Chat.sendMessage s w suggestionContent s =
    let '(_, s1, t1) :=
      Chat.fetchConversations s w
        (Chat.withMessages (Chat.messages optimistic ++ [aiMessage]) optimistic) in
    let '(_, s2, t2) := Chat.fetchSuggestions w s1 in
    (tt, Chat.withLoading false s2, Fetch post :: t1 ++ t2).
Proof.
  intros Hc Ha Hd. unfold Chat.sendMessage. fold contentToSend.
  rewrite truthy_trim, Hc. unfold Chat.hasActive in Ha. rewrite Ha.
  destruct (messageResponse w) as [|[|] [d|]]; try discriminate.
  injection Hd as ->.
  unfold optimistic, userMessage, post, bind, fetch, emit, modify,
    Chat.updateMessages, Chat.setInput, Chat.setLoading.
  cbn -[Chat.fetchConversations Chat.fetchSuggestions].
  destruct (Chat.fetchConversations s w _) as [[u1 s1] t1].
  destruct (Chat.fetchSuggestions w s1) as [[u2 s2] t2].
  cbn. rewrite app_nil_r. reflexivity.
Qed.

Lemma sendMessage_not_delivered :
  whitespaceOnly contentToSend = false ->
  Chat.hasActive s = true ->
  delivered (messageResponse w) = None ->
  exists tr,
    Chat.sendMessage s w suggestionContent s =
      (tt, Chat.withLoading false optimistic, Fetch post :: tr)
    /\ requests tr = [].
Proof.
  intros Hc Ha Hd. unfold Chat.sendMessage. fold contentToSend.
  rewrite truthy_trim, Hc. unfold Chat.hasActive in Ha. rewrite Ha.
  destruct (messageResponse w) as [|[|] [d|]]; try discriminate;
    cbn; eexists; (split; [reflexivity|reflexivity]).
Qed.

End Send.

(** What a reload and a refresh can and cannot touch. *)

Lemma fetchConversations_requests (r s : Chat.State) (w : World) :
  requests (trace (Chat.fetchConversations r w s)) =
    if truthyToken (token w) then [GET_conversations (token w)] else [].
Proof.
  unfold Chat.fetchConversations.
  destruct (truthyToken (token w)); [|reflexivity].
  destruct (listResponse w) as [|[|] [[|first rest]|]]; try reflexivity.
  cbn. destruct (truthyId (Chat.currentConversationId r)); reflexivity.
Qed.

Lemma fetchSuggestions_requests (s : Chat.State) (w : World) :
  requests (trace (Chat.fetchSuggestions w s)) =
    if truthyToken (token w) then [GET_suggestions (token w)] else [].
Proof.
  unfold Chat.fetchSuggestions.
  destruct (truthyToken (token w)); [|reflexivity].
  destruct (suggestionsResponse w) as [|[|] [d|]]; reflexivity.
Qed.

Lemma fetchConversations_active_frame (r s : Chat.State) (w : World) :
  Chat.hasActive r = true ->
  finalState (Chat.fetchConversations r w s) =
    Chat.withConversations
      (Chat.conversations (finalState (Chat.fetchConversations r w s))) s.
Proof.
  unfold Chat.hasActive. intros Ha. unfold Chat.fetchConversations.
  rewrite Ha. destruct s.
  destruct (truthyToken (token w)); [|reflexivity].
  destruct (listResponse w) as [|[|] [[|first rest]|]]; reflexivity.
Qed.

Lemma fetchSuggestions_frame (s : Chat.State) (w : World) :
  finalState (Chat.fetchSuggestions w s) =
    Chat.withSuggestions
      (Chat.suggestions (finalState (Chat.fetchSuggestions w s))) s.
Proof.
  unfold Chat.fetchSuggestions. destruct s.
  destruct (truthyToken (token w)); [|reflexivity].
  destruct (suggestionsResponse w) as [|[|] [d|]]; reflexivity.
Qed.

Lemma send_noop_guard (w : World) (s : Chat.State)
      (suggestionContent : option jsstring) :
  whitespaceOnly (orString suggestionContent (Chat.input s)) = true
  \/ Chat.hasActive s = false ->
  fst (Chat.run w (Chat.OpSend suggestionContent) s) = s.
Proof.
  intros H. unfold Chat.run, Chat.handler.
  rewrite (sendMessage_guard w s suggestionContent H). reflexivity.
Qed.

(** C5.  A send whose content (the clicked suggestion, or else the draft) is
    empty or consists of white space only, and a send while no conversation
    is active, does nothing: the state, the message stream included, is the
    state before, and no request is issued. *)
Theorem send_noop (w : World) (s : Chat.State) (suggestionContent : option jsstring) :
  whitespaceOnly (orString suggestionContent (Chat.input s)) = true
  \/ Chat.hasActive s = false ->
  Chat.run w (Chat.OpSend suggestionContent) s = (s, []).
Proof.
  intros H. unfold Chat.run, Chat.handler.
  rewrite (sendMessage_guard w s suggestionContent H). reflexivity.
Qed.

Lemma send_noop_witness :
  Chat.run servedWorld (Chat.OpSend (Some (lit "   "))) chatting = (chatting, [])
  /\ Chat.run servedWorld (Chat.OpSend None) (Chat.withInput [] chatting)
     = (Chat.withInput [] chatting, [])
  /\ Chat.run servedWorld (Chat.OpSend None) (Chat.withCurrentConversationId None chatting)
     = (Chat.withCurrentConversationId None chatting, []).
Proof.
  split; [|split].
  - apply (send_noop servedWorld chatting (Some (lit "   "))). left. reflexivity.
  - apply (send_noop servedWorld (Chat.withInput [] chatting) None).
    left. reflexivity.
  - apply (send_noop servedWorld (Chat.withCurrentConversationId None chatting) None).
    right. reflexivity.
Defined.

(** C1.  With a conversation active and a content that is not white space
    only, a send whose request is answered successfully leaves the message
    stream equal to the stream before, followed by the optimistic message
    (role user, the content sent, the clock as id), followed by the server's
    reply.  After the reply it runs the conversation-list reload and then
    the suggestion refresh, the pending flag ends cleared, and with a token
    stored the requests issued are the send, the list reload and the
    suggestion refresh, in that order; a list or a suggestion feed the
    server delivers replaces the local one. *)
Theorem send_success (w : World) (s : Chat.State)
        (suggestionContent : option jsstring) (reply : Message.t) :
  let content := orString suggestionContent (Chat.input s) in
  let post := POST_message (token w) (Chat.currentConversationId s) content in
  let s' := fst (Chat.run w (Chat.OpSend suggestionContent) s) in
  let tr := snd (Chat.run w (Chat.OpSend suggestionContent) s) in
  Chat.hasActive s = true ->
  whitespaceOnly content = false ->
  delivered (messageResponse w) = Some reply ->
  Chat.messages s' = Chat.messages s ++ [Message.mk (now w) user content] ++ [reply]
  /\ Chat.currentConversationId s' = Chat.currentConversationId s
  /\ Chat.loading s' = false
  /\ (exists reloaded refreshed t1 t2,
         let sent :=
           Chat.mkState (Chat.conversations s) (Chat.currentConversationId s)
             (Chat.messages s ++ [Message.mk (now w) user content] ++ [reply])
             [] true
             (Chat.suggestions s) (Chat.editingConversationId s) (Chat.editTitle s) in
         Chat.fetchConversations s w sent = (tt, reloaded, t1)
         /\ Chat.fetchSuggestions w reloaded = (tt, refreshed, t2)
         /\ s' = Chat.withLoading false refreshed
         /\ tr = Fetch post :: t1 ++ t2)
  /\ (truthyToken (token w) = true ->
      requests tr = [post; GET_conversations (token w); GET_suggestions (token w)])
  /\ (forall data,
         truthyToken (token w) = true ->
         delivered (listResponse w) = Some data ->
         Chat.conversations s' = data)
  /\ (forall feed,
         truthyToken (token w) = true ->
         delivered (suggestionsResponse w) = Some feed ->
         Chat.suggestions s' = feed).
Proof.
  intros content post s' tr Ha Hc Hd.
  subst s' tr. unfold Chat.run, Chat.handler.
  rewrite (sendMessage_delivered w s suggestionContent reply Hc Ha Hd).
  fold content. fold post.
  set (sent := Chat.withMessages _ _).
  pose proof (fetchConversations_active_frame s sent w Ha) as Hf1.
  pose proof (fetchConversations_requests s sent w) as Hr1.
  destruct (Chat.fetchConversations s w sent) as [[[] s1] t1] eqn:E1.
  pose proof (fetchSuggestions_frame s1 w) as Hf2.
  pose proof (fetchSuggestions_requests s1 w) as Hr2.
  destruct (Chat.fetchSuggestions w s1) as [[[] s2] t2] eqn:E2.
  unfold finalState, trace in *. cbn [fst snd] in *.
  assert (Hm : Chat.messages s2 = Chat.messages sent).
  { rewrite Hf2, Hf1. reflexivity. }
  assert (Hs : Chat.messages sent
               = Chat.messages s ++ [Message.mk (now w) user content] ++ [reply]).
  { subst sent. cbn. rewrite <- app_assoc. reflexivity. }
  split; [cbn; rewrite Hm; exact Hs|].
  split; [cbn; rewrite Hf2, Hf1; reflexivity|].
  split; [reflexivity|].
  split.
  { exists s1, s2, t1, t2. cbn zeta. rewrite <- Hs.
    split; [exact E1|]. split; [exact E2|]. split; reflexivity. }
  split.
  { intros Ht. rewrite Ht in Hr1, Hr2. cbn [requests flat_map].
    change (flat_map _ (t1 ++ t2)) with (requests (t1 ++ t2)).
    rewrite requests_app, Hr1, Hr2. reflexivity. }
  split.
  - intros data Ht Hl.
    rewrite (fetchConversations_delivered s sent w data Ht Hl) in E1.
    injection E1 as <- _. rewrite Ha in Hf2. cbn. rewrite Hf2.
    destruct data; reflexivity.
  - intros feed Ht Hl.
    rewrite (fetchSuggestions_delivered s1 w feed Ht Hl) in E2.
    injection E2 as <- _. reflexivity.
Qed.

Lemma send_success_witness :
  Chat.messages (fst (Chat.run servedWorld (Chat.OpSend None) chatting))
    = [Message.mk 1700000000000 user (lit "Hello"); serverReply]
  /\ requests (snd (Chat.run servedWorld (Chat.OpSend None) chatting))
    = [POST_message sampleToken (Some 7) (lit "Hello");
       GET_conversations sampleToken; GET_suggestions sampleToken]
  /\ Chat.suggestions (fst (Chat.run servedWorld (Chat.OpSend None) chatting))
    = sampleSuggestions.
Proof.
  pose proof (send_success servedWorld chatting None serverReply
                eq_refl eq_refl eq_refl) as [Hm [_ [_ [_ [Hr [_ Hs]]]]]].
  split; [exact Hm|]. split; [exact (Hr eq_refl)|].
  exact (Hs sampleSuggestions eq_refl eq_refl).
Defined.

(** C6.  With a conversation active and a content that is not white space
    only, a send whose request fails (no answer, or an answer that is not
    2xx) leaves the optimistic user message at the end of the stream, clears
    the pending flag and appends no assistant message: the stream is the
    stream before plus the optimistic message, and the send is the only
    request issued. *)
Theorem send_failure (w : World) (s : Chat.State)
        (suggestionContent : option jsstring) :
  let content := orString suggestionContent (Chat.input s) in
  let s' := fst (Chat.run w (Chat.OpSend suggestionContent) s) in
  let tr := snd (Chat.run w (Chat.OpSend suggestionContent) s) in
  Chat.hasActive s = true ->
  whitespaceOnly content = false ->
  failed (messageResponse w) ->
  Chat.messages s' = Chat.messages s ++ [Message.mk (now w) user content]
  /\ Chat.loading s' = false
  /\ s' = Chat.mkState (Chat.conversations s) (Chat.currentConversationId s)
            (Chat.messages s ++ [Message.mk (now w) user content]) [] false
            (Chat.suggestions s) (Chat.editingConversationId s) (Chat.editTitle s)
  /\ requests tr
     = [POST_message (token w) (Chat.currentConversationId s) content].
Proof.
  intros content s' tr Ha Hc Hf. apply failed_not_delivered in Hf.
  destruct (sendMessage_not_delivered w s suggestionContent Hc Ha Hf)
    as [t [E Ht]].
  subst s' tr. unfold Chat.run, Chat.handler. rewrite E. cbn.
  split; [reflexivity|]. split; [reflexivity|]. split; [reflexivity|].
  change (flat_map _ t) with (requests t). rewrite Ht. reflexivity.
Qed.

Lemma send_failure_witness :
  Chat.messages (fst (Chat.run offlineWorld (Chat.OpSend None) chatting))
    = [Message.mk 1700000000000 user (lit "Hello")]
  /\ Chat.loading (fst (Chat.run erroringWorld (Chat.OpSend None) chatting)) = false.
Proof.
  split.
  - apply (send_failure offlineWorld chatting None); try reflexivity.
    left. reflexivity.
  - apply (send_failure erroringWorld chatting None); try reflexivity.
    right. exists None. reflexivity.
Defined.

(** ** Creating conversations *)

Lemma createNewConversation_delivered (w : World) (s : Chat.State)
      (newConv : Conversation.t) :
  delivered (createResponse w) = Some newConv ->
  Chat.run w Chat.OpCreate s =
    (Chat.mkState (newConv :: Chat.conversations s)
       (Some (Conversation.id newConv))
       (Conversation.messagesOrEmpty newConv)
       (Chat.input s) (Chat.loading s) (Chat.suggestions s)
       (Chat.editingConversationId s) (Chat.editTitle s),
     [Fetch (POST_conversations (token w) (lit "New Chat"))]).
Proof.
  intros Hd. unfold Chat.run, Chat.handler, Chat.createNewConversation.
  destruct (createResponse w) as [|[|] [d|]]; try discriminate.
  injection Hd as ->. reflexivity.
Qed.

Lemma createNewConversation_not_delivered (w : World) (s : Chat.State) :
  delivered (createResponse w) = None ->
  fst (Chat.run w Chat.OpCreate s) = s
  /\ requests (snd (Chat.run w Chat.OpCreate s))
     = [POST_conversations (token w) (lit "New Chat")].
Proof.
  intros Hd. unfold Chat.run, Chat.handler, Chat.createNewConversation.
  destruct (createResponse w) as [|[|] [d|]]; try discriminate;
    split; reflexivity.
Qed.

Lemma last_cons_default {A : Type} (l : list A) (x d : A) :
  last (x :: l) d = last l x.
Proof.
  revert x d. induction l as [|a l IH]; intros x d; [reflexivity|].
  change (last (x :: a :: l) d) with (last (a :: l) d).
  rewrite (IH a d), (IH a x). reflexivity.
Qed.

(** The script of one create per world. *)
Lemma runAll_creates (ws : list World) (cs : list Conversation.t) :
  Forall2 (fun w c => delivered (createResponse w) = Some c) ws cs ->
  forall s,
    let s' := fst (Chat.runAll (map (fun w => (w, Chat.OpCreate)) ws) s) in
    Chat.conversations s' = rev cs ++ Chat.conversations s
    /\ Chat.currentConversationId s'
       = last (map (fun c => Some (Conversation.id c)) cs)
              (Chat.currentConversationId s)
    /\ Chat.messages s'
       = last (map Conversation.messagesOrEmpty cs) (Chat.messages s).
Proof.
  induction 1 as [|w c ws cs Hd _ IH]; intros s.
  - cbn. repeat split.
  - cbn [map Chat.runAll].
    rewrite (createNewConversation_delivered w s c Hd).
    match goal with |- context [Chat.runAll _ ?st] => specialize (IH st) end.
    destruct (Chat.runAll _ _) as [s2 t2]. cbn [fst] in *.
    destruct IH as [Hl [Hi Hm]]. cbn [Chat.conversations Chat.currentConversationId
                                      Chat.messages] in *.
    split; [|split].
    + rewrite Hl. cbn [rev]. rewrite <- app_assoc. reflexivity.
    + rewrite Hi. cbn [map]. rewrite last_cons_default. reflexivity.
    + rewrite Hm. cbn [map]. rewrite last_cons_default. reflexivity.
Qed.

(** C7.  Successful creates, run one after the other with no load in
    between, each put the created conversation at the front of the list and
    make it the active one: after creating [cs] in that order the list is
    [cs] reversed (most recent first) in front of the list before, and the
    last one created is active with its messages as the stream.  The next
    successful load replaces that order by the server's.  A create whose
    request fails leaves the state, the list included, unchanged. *)
Theorem create_prepends (ws : list World) (cs : list Conversation.t)
        (s : Chat.State) :
  Forall2 (fun w c => delivered (createResponse w) = Some c) ws cs ->
  let s' := fst (Chat.runAll (map (fun w => (w, Chat.OpCreate)) ws) s) in
  Chat.conversations s' = rev cs ++ Chat.conversations s
  /\ (forall earlier newest,
         cs = earlier ++ [newest] ->
         Chat.currentConversationId s' = Some (Conversation.id newest)
         /\ Chat.messages s' = Conversation.messagesOrEmpty newest
         /\ hd_error (Chat.conversations s') = Some newest)
  /\ (forall w data,
         truthyToken (token w) = true ->
         delivered (listResponse w) = Some data ->
         Chat.conversations (fst (Chat.run w Chat.OpLoad s')) = data)
  /\ (forall w, failed (createResponse w) -> fst (Chat.run w Chat.OpCreate s) = s).
Proof.
  intros HF s'. destruct (runAll_creates ws cs HF s) as [Hl [Hi Hm]].
  fold s' in Hl, Hi, Hm.
  split; [exact Hl|]. split; [|split].
  - intros earlier newest ->.
    rewrite map_app in Hi, Hm. cbn [map] in Hi, Hm.
    rewrite last_last in Hi, Hm.
    rewrite Hl, rev_app_distr. cbn. auto.
  - intros w data Ht Hd. unfold Chat.run, Chat.handler.
    rewrite (fetchConversations_delivered s' s' w data Ht Hd). cbn.
    destruct data; [reflexivity|]. destruct (Chat.hasActive s'); reflexivity.
  - intros w Hf. apply failed_not_delivered in Hf.
    apply (createNewConversation_not_delivered w s Hf).
Qed.

Lemma create_prepends_witness :
  Chat.conversations
    (fst (Chat.runAll
            [(servedWorld, Chat.OpCreate);
             (mkWorld sampleToken true 1700000000001 Rejected Rejected
                      (Resolved true (Some conv10)) Rejected Rejected Rejected,
              Chat.OpCreate)]
            chatting))
  = [conv10; conv9; conv7; conv8].
Proof.
  apply (create_prepends
           [servedWorld;
            mkWorld sampleToken true 1700000000001 Rejected Rejected
                    (Resolved true (Some conv10)) Rejected Rejected Rejected]
           [conv9; conv10] chatting).
  constructor; [reflexivity|]. constructor; [reflexivity|]. constructor.
Defined.

(** ** Deleting a conversation *)

Lemma filter_drops_id (id : Z) (l : list Conversation.t) :
  ~ In id (map Conversation.id
             (filter (fun c => negb (Conversation.id c =? id)) l)).
Proof.
  intros H. apply in_map_iff in H. destruct H as [c [E H]].
  apply filter_In in H. destruct H as [_ H].
  rewrite negb_true_iff, Z.eqb_neq in H. contradiction.
Qed.

Lemma deleteConversation_accepted (w : World) (s : Chat.State) (id : Z) :
  confirm w = true ->
  accepted (deleteResponse w) = true ->
  Chat.run w (Chat.OpDelete id) s =
    (let kept := filter (fun c => negb (Conversation.id c =? id))
                        (Chat.conversations s) in
     if strictEqId (Chat.currentConversationId s) id
     then Chat.withMessages []
            (Chat.withCurrentConversationId None (Chat.withConversations kept s))
     else Chat.withConversations kept s,
     [Fetch (DELETE_conversation (token w) id)]).
Proof.
  intros Hc Ha. unfold Chat.run, Chat.handler, Chat.deleteConversation.
  rewrite Hc. destruct (deleteResponse w) as [|[|] b]; try discriminate.
  cbn. destruct (strictEqId (Chat.currentConversationId s) id); reflexivity.
Qed.

Lemma deleteConversation_not_accepted (w : World) (s : Chat.State) (id : Z) :
  confirm w = true ->
  accepted (deleteResponse w) = false ->
  fst (Chat.run w (Chat.OpDelete id) s) = s
  /\ requests (snd (Chat.run w (Chat.OpDelete id) s))
     = [DELETE_conversation (token w) id].
Proof.
  intros Hc Ha. unfold Chat.run, Chat.handler, Chat.deleteConversation.
  rewrite Hc. destruct (deleteResponse w) as [|[|] b]; try discriminate;
    split; reflexivity.
Qed.

Lemma strictEqId_true (a : option Z) (b : Z) :
  strictEqId a b = true <-> a = Some b.
Proof.
  destruct a as [n|]; cbn.
  - rewrite Z.eqb_eq. split; congruence.
  - split; discriminate.
Qed.

(** C8.  Delete asks for confirmation first.  Declined: no request is
    issued and the state is unchanged.  Accepted: exactly the delete request
    is issued; when it is answered 2xx every entry with that id leaves the
    list and the other entries stay in order, and if the deleted id was the
    active one the active id is cleared and the stream emptied (otherwise
    both are kept); when it fails the state, the entry included, is
    unchanged. *)
Theorem delete_guarded (w : World) (s : Chat.State) (id : Z) :
  let s' := fst (Chat.run w (Chat.OpDelete id) s) in
  let tr := snd (Chat.run w (Chat.OpDelete id) s) in
  (confirm w = false -> s' = s /\ tr = [])
  /\ (confirm w = true -> requests tr = [DELETE_conversation (token w) id])
  /\ (confirm w = true -> accepted (deleteResponse w) = true ->
      Chat.conversations s'
        = filter (fun c => negb (Conversation.id c =? id)) (Chat.conversations s)
      /\ ~ In id (map Conversation.id (Chat.conversations s'))
      /\ (forall c, In c (Chat.conversations s) -> Conversation.id c <> id ->
                    In c (Chat.conversations s'))
      /\ (Chat.currentConversationId s = Some id ->
          Chat.currentConversationId s' = None /\ Chat.messages s' = [])
      /\ (Chat.currentConversationId s <> Some id ->
          Chat.currentConversationId s' = Chat.currentConversationId s
          /\ Chat.messages s' = Chat.messages s))
  /\ (confirm w = true -> failed (deleteResponse w) -> s' = s).
Proof.
  cbv zeta. split; [|split; [|split]].
  - intros Hc. unfold Chat.run, Chat.handler, Chat.deleteConversation.
    rewrite Hc. split; reflexivity.
  - intros Hc. destruct (accepted (deleteResponse w)) eqn:Ha.
    + rewrite (deleteConversation_accepted w s id Hc Ha). reflexivity.
    + apply (deleteConversation_not_accepted w s id Hc Ha).
  - intros Hc Ha. rewrite (deleteConversation_accepted w s id Hc Ha).
    cbv zeta. cbn [fst].
    set (kept := filter _ (Chat.conversations s)).
    assert (Hl : Chat.conversations
                   (if strictEqId (Chat.currentConversationId s) id
                    then Chat.withMessages []
                           (Chat.withCurrentConversationId None
                              (Chat.withConversations kept s))
                    else Chat.withConversations kept s) = kept).
    { destruct (strictEqId _ _); reflexivity. }
    rewrite Hl. split; [reflexivity|].
    split; [apply filter_drops_id|]. split.
    { intros c Hin Hne. apply filter_In. split; [exact Hin|].
      now rewrite negb_true_iff, Z.eqb_neq. }
    split.
    + intros E. apply strictEqId_true in E. rewrite E. split; reflexivity.
    + intros E. destruct (strictEqId _ _) eqn:Q.
      * apply strictEqId_true in Q. contradiction.
      * split; reflexivity.
  - intros Hc Hf. apply failed_not_accepted in Hf.
    apply (deleteConversation_not_accepted w s id Hc Hf).
Qed.

Lemma delete_guarded_witness :
  (fst (Chat.run decliningWorld (Chat.OpDelete 7) renaming) = renaming
   /\ snd (Chat.run decliningWorld (Chat.OpDelete 7) renaming) = [])
  /\ (Chat.currentConversationId (fst (Chat.run servedWorld (Chat.OpDelete 7) renaming))
      = None
      /\ Chat.messages (fst (Chat.run servedWorld (Chat.OpDelete 7) renaming)) = [])
  /\ fst (Chat.run offlineWorld (Chat.OpDelete 7) renaming) = renaming.
Proof.
  split; [|split].
  - apply (delete_guarded decliningWorld renaming 7). reflexivity.
  - apply (delete_guarded servedWorld renaming 7); reflexivity.
  - apply (delete_guarded offlineWorld renaming 7); [reflexivity|].
    left. reflexivity.
Defined.

(** ** Renaming a conversation *)

Section Rename.
Variables (w : World) (s : Chat.State) (cid : Z).
Hypothesis editing : Chat.editingConversationId s = Some cid.
Hypothesis nonzero : cid <> 0.

Lemma saveTitle_accepted :
  accepted (patchResponse w) = true ->
  Chat.run w Chat.OpSaveTitle s =
    (Chat.mkState
       (map (fun c => if cid =? Conversation.id c
                      then Conversation.withTitle c (Chat.editTitle s)
                      else c)
            (Chat.conversations s))
       (Chat.currentConversationId s) (Chat.messages s) (Chat.input s)
       (Chat.loading s) (Chat.suggestions s) None [],
     [Fetch (PATCH_conversation (token w) (Some cid) (Chat.editTitle s))]).
Proof.
  intros Ha. unfold Chat.run, Chat.handler, Chat.saveTitle.
  rewrite editing. cbn [truthyId strictEqId].
  apply Z.eqb_neq in nonzero. rewrite nonzero. cbn [negb].
  destruct (patchResponse w) as [|[|] b]; try discriminate. reflexivity.
Qed.

Lemma saveTitle_not_accepted :
  accepted (patchResponse w) = false ->
  fst (Chat.run w Chat.OpSaveTitle s) = s
  /\ requests (snd (Chat.run w Chat.OpSaveTitle s))
     = [PATCH_conversation (token w) (Some cid) (Chat.editTitle s)].
Proof.
  intros Ha. unfold Chat.run, Chat.handler, Chat.saveTitle.
  rewrite editing. cbn [truthyId].
  apply Z.eqb_neq in nonzero. rewrite nonzero. cbn [negb].
  destruct (patchResponse w) as [|[|] b]; try discriminate; split; reflexivity.
Qed.

End Rename.

(** C9.  A rename of conversation [cid] (the id of the open edit session)
    whose request is answered 2xx changes nothing but titles of entries
    with that id: position by position the list keeps every entry's id and
    messages, an entry with another id is kept as it is, an entry with id
    [cid] gets the draft title, and the active id and the message stream
    are unchanged.  A rename whose request fails leaves the state, titles
    included, unchanged. *)
Theorem rename_only_title (w : World) (s : Chat.State) (cid : Z) :
  let s' := fst (Chat.run w Chat.OpSaveTitle s) in
  Chat.editingConversationId s = Some cid ->
  cid <> 0 ->
  (accepted (patchResponse w) = true ->
   List.length (Chat.conversations s') = List.length (Chat.conversations s)
   /\ (forall n c,
          nth_error (Chat.conversations s) n = Some c ->
          exists c',
            nth_error (Chat.conversations s') n = Some c'
            /\ Conversation.id c' = Conversation.id c
            /\ Conversation.messages c' = Conversation.messages c
            /\ (Conversation.id c = cid -> Conversation.title c' = Chat.editTitle s)
            /\ (Conversation.id c <> cid -> c' = c))
   /\ Chat.currentConversationId s' = Chat.currentConversationId s
   /\ Chat.messages s' = Chat.messages s
   /\ requests (snd (Chat.run w Chat.OpSaveTitle s))
      = [PATCH_conversation (token w) (Some cid) (Chat.editTitle s)])
  /\ (failed (patchResponse w) -> s' = s).
Proof.
  intros s' He Hz. subst s'. split.
  - intros Ha. rewrite (saveTitle_accepted w s cid He Hz Ha).
    cbn [fst snd Chat.conversations Chat.currentConversationId Chat.messages].
    split; [apply length_map|]. split; [|repeat split].
    intros n c Hn.
    rewrite nth_error_map, Hn. cbn [option_map].
    eexists. split; [reflexivity|].
    destruct (Z.eqb_spec cid (Conversation.id c)) as [E|E]; cbn.
    + repeat split; auto. intros; congruence.
    + repeat split; auto. intros; congruence.
  - intros Hf. apply failed_not_accepted in Hf.
    apply (saveTitle_not_accepted w s cid He Hz Hf).
Qed.

Lemma rename_only_title_witness :
  Chat.currentConversationId (fst (Chat.run servedWorld Chat.OpSaveTitle renaming))
    = Some 7
  /\ fst (Chat.run erroringWorld Chat.OpSaveTitle renaming) = renaming.
Proof.
  assert (Hz : 7 <> 0) by discriminate.
  split.
  - apply (proj1 (rename_only_title servedWorld renaming 7 eq_refl Hz) eq_refl).
  - apply (proj2 (rename_only_title erroringWorld renaming 7 eq_refl Hz)).
    right. exists None. reflexivity.
Defined.

(** ** The active id and the list *)

Lemma activeListed_ext (s1 s2 : Chat.State) :
  Chat.conversations s2 = Chat.conversations s1 ->
  Chat.currentConversationId s2 = Chat.currentConversationId s1 ->
  Chat.activeListed s1 -> Chat.activeListed s2.
Proof. unfold Chat.activeListed. intros -> ->. auto. Qed.

Lemma activeListed_selected (c : Conversation.t) (l : list Conversation.t)
      (s : Chat.State) :
  In c l ->
  Chat.activeListed
    (Chat.withMessages (Conversation.messagesOrEmpty c)
       (Chat.withCurrentConversationId (Some (Conversation.id c))
          (Chat.withConversations l s))).
Proof.
  intros Hin cid E. cbn in *. injection E as <-. now apply in_map.
Qed.

Lemma fetchConversations_activeListed (r s : Chat.State) (w : World) :
  Chat.currentConversationId r = Chat.currentConversationId s ->
  Chat.serverKeepsActive w s ->
  Chat.activeListed s ->
  Chat.activeListed (finalState (Chat.fetchConversations r w s)).
Proof.
  intros Hr Hk Hinv.
  destruct (truthyToken (token w)) eqn:Ht.
  - destruct (delivered (listResponse w)) as [data|] eqn:Hd.
    + rewrite (fetchConversations_delivered r s w data Ht Hd).
      unfold finalState. cbn [fst snd].
      assert (Hkeep : Chat.activeListed (Chat.withConversations data s)).
      { intros cid E. cbn in *. exact (Hk data cid Hd E). }
      destruct data as [|first rest]; [exact Hkeep|].
      destruct (Chat.hasActive r); [exact Hkeep|].
      apply activeListed_selected. now left.
    + destruct (fetchConversations_not_delivered r s w Hd) as [tr [E _]].
      rewrite E. exact Hinv.
  - rewrite (fetchConversations_no_token r s w Ht). exact Hinv.
Qed.

Lemma fetchSuggestions_activeListed (s : Chat.State) (w : World) :
  Chat.activeListed s ->
  Chat.activeListed (finalState (Chat.fetchSuggestions w s)).
Proof.
  intros Hinv. rewrite fetchSuggestions_frame.
  eapply activeListed_ext; [| |exact Hinv]; reflexivity.
Qed.

Lemma map_id_withTitle (p : Conversation.t -> bool) (v : jsstring)
      (l : list Conversation.t) :
  map Conversation.id
      (map (fun c => if p c then Conversation.withTitle c v else c) l)
  = map Conversation.id l.
Proof.
  rewrite map_map. apply map_ext. intros c. destruct (p c); reflexivity.
Qed.

(** C2, as the code has it.  The invariant "a non-null active id names an
    element of the list" is preserved by every operation offered by the
    page, in every world, except that a load, and the reload that follows a
    successful send, keep it only if the list the server delivers still
    contains the active id: the reload replaces the list and does not look
    at the active id again.  Deleting the active conversation clears the
    active id. *)
Theorem active_listed_preserved (w : World) (op : Chat.Op) (s : Chat.State) :
  Chat.offered s op ->
  (Chat.reloads op = true -> Chat.serverKeepsActive w s) ->
  Chat.activeListed s ->
  Chat.activeListed (fst (Chat.run w op s))
  /\ (forall id,
         op = Chat.OpDelete id -> confirm w = true ->
         accepted (deleteResponse w) = true ->
         Chat.currentConversationId s = Some id ->
         Chat.currentConversationId (fst (Chat.run w op s)) = None).
Proof.
  intros Hoff Hsrv Hinv. split.
  - destruct op; cbn [Chat.reloads Chat.offered] in *.
    + (* load *)
      specialize (Hsrv eq_refl).
      pose proof (fetchConversations_activeListed s s w eq_refl Hsrv Hinv) as H.
      unfold Chat.run, Chat.handler.
      destruct (Chat.fetchConversations s w s) as [[u s1] t1]. exact H.
    + (* suggestions refresh *)
      pose proof (fetchSuggestions_activeListed s w Hinv) as H.
      unfold Chat.run, Chat.handler.
      destruct (Chat.fetchSuggestions w s) as [[u s1] t1]. exact H.
    + (* select *)
      intros cid E. cbn in *. injection E as <-. now apply in_map.
    + (* create *)
      destruct (delivered (createResponse w)) as [c|] eqn:Hd.
      * rewrite (createNewConversation_delivered w s c Hd).
        intros cid E. cbn in *. injection E as <-. now left.
      * rewrite (proj1 (createNewConversation_not_delivered w s Hd)).
        exact Hinv.
    + (* start editing *) exact Hinv.
    + (* typing a title *) exact Hinv.
    + (* rename *)
      unfold Chat.run, Chat.handler, Chat.saveTitle.
      destruct (truthyId (Chat.editingConversationId s)); [|exact Hinv].
      destruct (patchResponse w) as [|[|] b]; try exact Hinv.
      intros cid E. cbn in *. rewrite map_id_withTitle. now apply Hinv.
    + (* cancel editing *) exact Hinv.
    + (* delete *)
      destruct (confirm w) eqn:Hc.
      2:{ unfold Chat.run, Chat.handler, Chat.deleteConversation.
          rewrite Hc. exact Hinv. }
      destruct (accepted (deleteResponse w)) eqn:Ha.
      2:{ rewrite (proj1 (deleteConversation_not_accepted w s id Hc Ha)).
          exact Hinv. }
      rewrite (deleteConversation_accepted w s id Hc Ha). cbv zeta. cbn [fst].
      destruct (strictEqId (Chat.currentConversationId s) id) eqn:Q.
      * intros cid E. discriminate.
      * intros cid E. cbn in *. apply in_map_iff.
        destruct (proj1 (in_map_iff _ _ _) (Hinv cid E)) as [c [Ec Hin]].
        exists c. split; [exact Ec|]. apply filter_In. split; [exact Hin|].
        rewrite negb_true_iff, Z.eqb_neq. intros Eid.
        rewrite E in Q. cbn in Q. apply Z.eqb_neq in Q. congruence.
    + (* typing a message *) exact Hinv.
    + (* send *)
      specialize (Hsrv eq_refl).
      set (content := orString suggestionContent (Chat.input s)).
      destruct (whitespaceOnly content) eqn:Hw.
      { rewrite (send_noop_guard w s suggestionContent (or_introl Hw)).
        exact Hinv. }
      destruct (Chat.hasActive s) eqn:Ha.
      2:{ rewrite (send_noop_guard w s suggestionContent (or_intror Ha)).
          exact Hinv. }
      unfold Chat.run, Chat.handler.
      destruct (delivered (messageResponse w)) as [reply|] eqn:Hd.
      * rewrite (sendMessage_delivered w s suggestionContent reply Hw Ha Hd).
        match goal with
        | |- context [Chat.fetchConversations s w ?st] => set (sent := st)
        end.
        assert (H1 : Chat.activeListed
                       (finalState (Chat.fetchConversations s w sent))).
        { apply fetchConversations_activeListed; [reflexivity| |].
          - intros data cid Hl E. exact (Hsrv data cid Hl E).
          - eapply activeListed_ext; [| |exact Hinv]; reflexivity. }
        destruct (Chat.fetchConversations s w sent) as [[u1 s1] t1].
        pose proof (fetchSuggestions_activeListed s1 w H1) as H2.
        destruct (Chat.fetchSuggestions w s1) as [[u2 s2] t2].
        eapply activeListed_ext; [| |exact H2]; reflexivity.
      * destruct (sendMessage_not_delivered w s suggestionContent Hw Ha Hd)
          as [tr [E _]].
        rewrite E. eapply activeListed_ext; [| |exact Hinv]; reflexivity.
  - intros id -> Hc Ha E.
    rewrite (deleteConversation_accepted w s id Hc Ha). cbv zeta. cbn [fst].
    apply strictEqId_true in E. rewrite E. reflexivity.
Qed.

Lemma chatting_activeListed : Chat.activeListed chatting.
Proof.
  intros cid E. cbn in E. injection E as <-. cbn. left. reflexivity.
Qed.

Lemma active_listed_preserved_witness :
  Chat.activeListed (fst (Chat.run servedWorld Chat.OpLoad chatting))
  /\ Chat.currentConversationId
       (fst (Chat.run servedWorld (Chat.OpDelete 7) chatting)) = None.
Proof.
  split.
  - apply (active_listed_preserved servedWorld Chat.OpLoad chatting).
    + exact I.
    + intros _ data cid Hd E. cbn in Hd, E.
      injection Hd as <-. injection E as <-. cbn. left. reflexivity.
    + exact chatting_activeListed.
  - apply (proj2 (active_listed_preserved servedWorld (Chat.OpDelete 7) chatting
                    I (fun H => False_ind _ (Bool.diff_false_true H))
                    chatting_activeListed) 7); reflexivity.
Defined.

(** C2 as stated fails: conversation 7 is active and listed; the server,
    from which 7 has been deleted in another session, delivers the list
    without it.  After the load, and just as well after the reload that
    follows a successful send, 7 is still the active id and is no longer in
    the list. *)
Lemma active_listed_broken_by_reload :
  Chat.activeListed chatting
  /\ Chat.offered chatting Chat.OpLoad
  /\ ~ Chat.activeListed (fst (Chat.run prunedWorld Chat.OpLoad chatting))
  /\ ~ Chat.activeListed (fst (Chat.run prunedWorld (Chat.OpSend None) chatting)).
Proof.
  split; [exact chatting_activeListed|]. split; [exact I|]. split.
  - intros H. specialize (H 7 eq_refl). cbn in H.
    destruct H as [H|[]]. discriminate.
  - intros H. specialize (H 7 eq_refl). cbn in H.
    destruct H as [H|[]]. discriminate.
Qed.

(** ** Missing credential *)

(** With no usable token stored, the list load and the suggestion refresh
    return at once. *)
Lemma missing_token_skips_reads (w : World) (s : Chat.State) :
  truthyToken (token w) = false ->
  Chat.run w Chat.OpLoad s = (s, [])
  /\ Chat.run w Chat.OpRefreshSuggestions s = (s, []).
Proof.
  intros Ht. unfold Chat.run, Chat.handler.
  rewrite (fetchConversations_no_token s s w Ht).
  rewrite (fetchSuggestions_no_token s w Ht). split; reflexivity.
Qed.

(** The four writing handlers never test the token: whatever is stored, the
    request goes out with it once their own guards have passed. *)
Lemma writes_ignore_token (w : World) (s : Chat.State) :
  requests (snd (Chat.run w Chat.OpCreate s))
    = [POST_conversations (token w) (lit "New Chat")]
  /\ (forall id, confirm w = true ->
        requests (snd (Chat.run w (Chat.OpDelete id) s))
          = [DELETE_conversation (token w) id])
  /\ (truthyId (Chat.editingConversationId s) = true ->
      requests (snd (Chat.run w Chat.OpSaveTitle s))
        = [PATCH_conversation (token w) (Chat.editingConversationId s)
                              (Chat.editTitle s)])
  /\ (forall suggestionContent,
        Chat.hasActive s = true ->
        whitespaceOnly (orString suggestionContent (Chat.input s)) = false ->
        hd_error (requests (snd (Chat.run w (Chat.OpSend suggestionContent) s)))
          = Some (POST_message (token w) (Chat.currentConversationId s)
                               (orString suggestionContent (Chat.input s)))
        /\ exists rest,
            Chat.messages (fst (Chat.run w (Chat.OpSend suggestionContent) s))
            = Chat.messages s
                ++ Message.mk (now w) user
                     (orString suggestionContent (Chat.input s)) :: rest).
Proof.
  split; [|split; [|split]].
  - destruct (delivered (createResponse w)) as [c|] eqn:Hd.
    + rewrite (createNewConversation_delivered w s c Hd). reflexivity.
    + apply (createNewConversation_not_delivered w s Hd).
  - intros id Hc. destruct (accepted (deleteResponse w)) eqn:Ha.
    + rewrite (deleteConversation_accepted w s id Hc Ha). reflexivity.
    + apply (deleteConversation_not_accepted w s id Hc Ha).
  - intros He. apply truthyId_true in He. destruct He as [cid [E Hz]].
    rewrite E. destruct (accepted (patchResponse w)) eqn:Ha.
    + rewrite (saveTitle_accepted w s cid E Hz Ha). reflexivity.
    + apply (saveTitle_not_accepted w s cid E Hz Ha).
  - intros sc Ha Hw. unfold Chat.run, Chat.handler.
    destruct (delivered (messageResponse w)) as [reply|] eqn:Hd.
    + rewrite (sendMessage_delivered w s sc reply Hw Ha Hd).
      match goal with
      | |- context [Chat.fetchConversations s w ?st] => set (sent := st)
      end.
      pose proof (fetchConversations_active_frame s sent w Ha) as F1.
      destruct (Chat.fetchConversations s w sent) as [[u1 s1] t1].
      pose proof (fetchSuggestions_frame s1 w) as F2.
      destruct (Chat.fetchSuggestions w s1) as [[u2 s2] t2].
      unfold finalState in *. cbn [fst snd] in *.
      split; [reflexivity|]. exists [reply].
      rewrite F2, F1. subst sent. cbn. rewrite <- app_assoc. reflexivity.
    + destruct (sendMessage_not_delivered w s sc Hw Ha Hd) as [tr [E _]].
      rewrite E. split; [reflexivity|]. exists []. reflexivity.
Qed.

(** C3 at the signed-out world (no token stored, the server answering 401).
    The load and the suggestion refresh are skipped.  Create, delete, rename
    and send are not: each issues its request with the null token, and the
    send also appends its optimistic message to the stream. *)
Theorem missing_token_not_skipped :
  token signedOutWorld = None
  /\ Chat.run signedOutWorld Chat.OpLoad chatting = (chatting, [])
  /\ Chat.run signedOutWorld Chat.OpRefreshSuggestions chatting = (chatting, [])
  /\ snd (Chat.run signedOutWorld Chat.OpCreate chatting)
     = [Fetch (POST_conversations None (lit "New Chat"))]
  /\ snd (Chat.run signedOutWorld (Chat.OpDelete 7) chatting)
     = [Fetch (DELETE_conversation None 7)]
  /\ snd (Chat.run signedOutWorld Chat.OpSaveTitle renaming)
     = [Fetch (PATCH_conversation None (Some 7) (lit "Rome"))]
  /\ snd (Chat.run signedOutWorld (Chat.OpSend None) chatting)
     = [Fetch (POST_message None (Some 7) (lit "Hello"))]
  /\ Chat.messages (fst (Chat.run signedOutWorld (Chat.OpSend None) chatting))
     = [Message.mk 1700000000000 user (lit "Hello")].
Proof. repeat split. Qed.

(** ** The side panel

    The side panel runs the same load, select, create and send over the
    five state cells it shares with the chat page; its send reloads the
    list and has no suggestion feed to refresh.  Each of its handlers
    commutes with the projection [ChatSidebar.ofChat], so what is proved
    above about the list, the active id and the stream of the chat page
    holds for the side panel as well. *)

Section SidePanel.
Variables (r s : Chat.State) (w : World).

Lemma sidebar_selectConversation (c : Conversation.t) :
  ChatSidebar.selectConversation c (ChatSidebar.ofChat s) =
    (tt, ChatSidebar.ofChat (finalState (Chat.selectConversation c s)), []).
Proof. reflexivity. Qed.

Lemma sidebar_fetchConversations :
  ChatSidebar.fetchConversations (ChatSidebar.ofChat r) w (ChatSidebar.ofChat s) =
    (tt, ChatSidebar.ofChat (finalState (Chat.fetchConversations r w s)),
     trace (Chat.fetchConversations r w s)).
Proof.
  unfold ChatSidebar.fetchConversations, Chat.fetchConversations.
  destruct (truthyToken (token w)); [|reflexivity].
  destruct (listResponse w) as [|[|] [[|first rest]|]]; try reflexivity.
  cbn. destruct (truthyId (Chat.currentConversationId r)); reflexivity.
Qed.

Lemma sidebar_createNewConversation :
  ChatSidebar.createNewConversation (ChatSidebar.ofChat r) w (ChatSidebar.ofChat s) =
    (tt, ChatSidebar.ofChat (finalState (Chat.createNewConversation r w s)),
     trace (Chat.createNewConversation r w s)).
Proof.
  unfold ChatSidebar.createNewConversation, Chat.createNewConversation.
  destruct (createResponse w) as [|[|] [c|]]; reflexivity.
Qed.

(** The side panel's send: same list, active id and stream as the chat
    page's send of the draft, and the same requests but for the suggestion
    refresh. *)
Lemma sidebar_sendMessage :
  finalState (ChatSidebar.sendMessage (ChatSidebar.ofChat r) w (ChatSidebar.ofChat s))
    = ChatSidebar.ofChat (finalState (Chat.sendMessage r w None s))
  /\ requests (trace (ChatSidebar.sendMessage (ChatSidebar.ofChat r) w
                                              (ChatSidebar.ofChat s)))
     = filter (fun q => match q with GET_suggestions _ => false | _ => true end)
              (requests (trace (Chat.sendMessage r w None s))).
Proof.
  unfold ChatSidebar.sendMessage, Chat.sendMessage.
  cbn [orString truthyToken ChatSidebar.ofChat ChatSidebar.input
       ChatSidebar.currentConversationId].
  destruct (negb (truthyString (trim (Chat.input r)))
            || negb (truthyId (Chat.currentConversationId r)));
    [split; reflexivity|].
  destruct (messageResponse w) as [|[|] [reply|]]; try (split; reflexivity).
  unfold Chat.fetchSuggestions, ChatSidebar.fetchConversations,
    Chat.fetchConversations.
  destruct (truthyToken (token w)); [|split; reflexivity].
  destruct (listResponse w) as [|[|] [[|first rest]|]];
    destruct (suggestionsResponse w) as [|[|] [feed|]];
    try (split; reflexivity);
    cbn; destruct (truthyId (Chat.currentConversationId r)); split; reflexivity.
Qed.

End SidePanel.

(** ** Edge cases of the truthiness tests *)


(** An empty suggestion falls through to the draft: [suggestionContent ||
    input]. *)
Lemma empty_suggestion_sends_draft (b : jsstring) :
  orString (Some []) b = b /\ orString None b = b.
Proof. split; reflexivity. Qed.

(** The rename workflow of the page: open the edit session on a listed
    conversation, type a title, submit. *)
Lemma rename_workflow (w : World) (s : Chat.State) (c : Conversation.t)
      (newTitle : jsstring) :
  Conversation.id c <> 0 ->
  accepted (patchResponse w) = true ->
  fst (Chat.runAll [(w, Chat.OpStartEditing c); (w, Chat.OpEditTitle newTitle);
                    (w, Chat.OpSaveTitle)] s)
  = Chat.mkState
      (map (fun c' => if Conversation.id c =? Conversation.id c'
                      then Conversation.withTitle c' newTitle
                      else c')
           (Chat.conversations s))
      (Chat.currentConversationId s) (Chat.messages s) (Chat.input s)
      (Chat.loading s) (Chat.suggestions s) None [].
Proof.
  intros Hz Ha. cbn [Chat.runAll].
  change (Chat.run w (Chat.OpStartEditing c) s)
    with (Chat.withEditTitle (Conversation.title c)
            (Chat.withEditingConversationId (Some (Conversation.id c)) s),
          @nil Event).
  cbv iota beta.
  set (s1 := Chat.withEditTitle _ _).
  change (Chat.run w (Chat.OpEditTitle newTitle) s1)
    with (Chat.withEditTitle newTitle s1, @nil Event).
  cbv iota beta.
  rewrite (saveTitle_accepted w (Chat.withEditTitle newTitle s1)
             (Conversation.id c) eq_refl Hz Ha).
  reflexivity.
Qed.

(** * Further properties of the chat page *)

(** ** The suggestion feed *)

(** X1.  A suggestion refresh replaces the feed wholesale by the list the
    server delivers and touches no other cell; when nothing is delivered
    (no answer, an answer that is not 2xx, a body that does not parse) the
    state is unchanged, and without a usable token it returns before any
    request. *)
Theorem refresh_replaces_feed (w : World) (s : Chat.State) :
  let s' := fst (Chat.run w Chat.OpRefreshSuggestions s) in
  let tr := snd (Chat.run w Chat.OpRefreshSuggestions s) in
  (forall feed,
      truthyToken (token w) = true ->
      delivered (suggestionsResponse w) = Some feed ->
      s' = Chat.withSuggestions feed s
      /\ requests tr = [GET_suggestions (token w)])
  /\ (delivered (suggestionsResponse w) = None ->
      s' = s
      /\ requests tr = if truthyToken (token w)
                       then [GET_suggestions (token w)] else [])
  /\ (truthyToken (token w) = false -> s' = s /\ tr = []).
Proof.
  cbv zeta. unfold Chat.run, Chat.handler. split; [|split].
  - intros feed Ht Hd. rewrite (fetchSuggestions_delivered s w feed Ht Hd).
    split; reflexivity.
  - intros Hd. destruct (fetchSuggestions_not_delivered s w Hd) as [tr [E Hr]].
    rewrite E. split; [reflexivity|exact Hr].
  - intros Ht. rewrite (fetchSuggestions_no_token s w Ht). split; reflexivity.
Qed.

Lemma refresh_replaces_feed_witness :
  fst (Chat.run servedWorld Chat.OpRefreshSuggestions reading)
    = Chat.withSuggestions sampleSuggestions reading
  /\ fst (Chat.run erroringWorld Chat.OpRefreshSuggestions reading) = reading
  /\ snd (Chat.run signedOutWorld Chat.OpRefreshSuggestions reading) = [].
Proof.
  split; [|split].
  - apply (proj1 (refresh_replaces_feed servedWorld reading)
                 sampleSuggestions eq_refl eq_refl).
  - apply (proj1 (proj2 (refresh_replaces_feed erroringWorld reading)) eq_refl).
  - apply (proj2 (proj2 (refresh_replaces_feed signedOutWorld reading)) eq_refl).
Defined.

(** ** Mounting the page *)




(** ** The edit session *)

(** X3.  There is one edit session.  Opening it on a row sets its id and
    loads the row's title as the draft, replacing whatever session was open;
    nothing else changes.  Cancelling clears the id and keeps the draft in
    its cell; after a cancel, and again after a rename that was answered
    2xx, submitting the rename form does nothing and issues no request. *)
Theorem edit_session_exclusive (w w' : World) (s : Chat.State)
        (a b : Conversation.t) :
  let opened :=
    fst (Chat.run w (Chat.OpStartEditing b)
           (fst (Chat.run w (Chat.OpStartEditing a) s))) in
  let cancelled := fst (Chat.run w Chat.OpCancelEditing opened) in
  let saved := fst (Chat.run w Chat.OpSaveTitle opened) in
  opened = Chat.mkState (Chat.conversations s) (Chat.currentConversationId s)
             (Chat.messages s) (Chat.input s) (Chat.loading s)
             (Chat.suggestions s)
             (Some (Conversation.id b)) (Conversation.title b)
  /\ snd (Chat.run w (Chat.OpStartEditing b) s) = []
  /\ cancelled = Chat.withEditingConversationId None opened
  /\ Chat.run w' Chat.OpSaveTitle cancelled = (cancelled, [])
  /\ (Conversation.id b <> 0 -> accepted (patchResponse w) = true ->
      Chat.editingConversationId saved = None
      /\ Chat.editTitle saved = []
      /\ Chat.run w' Chat.OpSaveTitle saved = (saved, [])).
Proof.
  cbv zeta. split; [reflexivity|]. split; [reflexivity|].
  split; [reflexivity|]. split; [reflexivity|].
  intros Hz Ha.
  set (opened := fst (Chat.run w (Chat.OpStartEditing b) _)).
  rewrite (saveTitle_accepted w opened (Conversation.id b) eq_refl Hz Ha).
  split; [reflexivity|]. split; reflexivity.
Qed.

Lemma edit_session_exclusive_witness :
  Chat.run offlineWorld Chat.OpSaveTitle
    (fst (Chat.run servedWorld Chat.OpSaveTitle
            (fst (Chat.run servedWorld (Chat.OpStartEditing conv8)
                    (fst (Chat.run servedWorld (Chat.OpStartEditing conv7)
                            chatting))))))
  = (fst (Chat.run servedWorld Chat.OpSaveTitle
            (fst (Chat.run servedWorld (Chat.OpStartEditing conv8)
                    (fst (Chat.run servedWorld (Chat.OpStartEditing conv7)
                            chatting))))), []).
Proof.
  assert (Hz : Conversation.id conv8 <> 0) by discriminate.
  apply (proj2 (proj2 (proj2 (proj2
           (edit_session_exclusive servedWorld offlineWorld chatting conv7 conv8))))
           Hz eq_refl).
Defined.

(** X4.  The rename workflow, in one world that answers the request 2xx:
    opening the session on a conversation (id not 0), typing a title and
    submitting gives every entry with that id the typed title, leaves the
    other entries, the active id, the stream, the draft message, the
    pending flag and the feed as they were, and closes the session. *)
Theorem rename_by_the_form (w : World) (s : Chat.State) (c : Conversation.t)
        (newTitle : jsstring) :
  Conversation.id c <> 0 ->
  accepted (patchResponse w) = true ->
  Chat.runAll [(w, Chat.OpStartEditing c); (w, Chat.OpEditTitle newTitle);
               (w, Chat.OpSaveTitle)] s
  = (Chat.mkState
       (map (fun c' => if Conversation.id c =? Conversation.id c'
                       then Conversation.withTitle c' newTitle
                       else c')
            (Chat.conversations s))
       (Chat.currentConversationId s) (Chat.messages s) (Chat.input s)
       (Chat.loading s) (Chat.suggestions s) None [],
     [Fetch (PATCH_conversation (token w) (Some (Conversation.id c)) newTitle)]).
Proof.
  intros Hz Ha. cbn [Chat.runAll].
  change (Chat.run w (Chat.OpStartEditing c) s)
    with (Chat.withEditTitle (Conversation.title c)
            (Chat.withEditingConversationId (Some (Conversation.id c)) s),
          @nil Event).
  cbv iota beta.
  set (s1 := Chat.withEditTitle _ _).
  change (Chat.run w (Chat.OpEditTitle newTitle) s1)
    with (Chat.withEditTitle newTitle s1, @nil Event).
  cbv iota beta.
  rewrite (saveTitle_accepted w (Chat.withEditTitle newTitle s1)
             (Conversation.id c) eq_refl Hz Ha).
  reflexivity.
Qed.

Lemma rename_by_the_form_witness :
  Chat.conversations
    (fst (Chat.runAll [(servedWorld, Chat.OpStartEditing conv7);
                       (servedWorld, Chat.OpEditTitle (lit "Rome"));
                       (servedWorld, Chat.OpSaveTitle)] chatting))
  = [Conversation.withTitle conv7 (lit "Rome"); conv8].
Proof.
  assert (Hz : Conversation.id conv7 <> 0) by discriminate.
  rewrite (rename_by_the_form servedWorld chatting conv7 (lit "Rome") Hz eq_refl).
  reflexivity.
Defined.

(** ** A conversation numbered 0 *)



(** ** The header of the chat area *)



Lemma find_after_titles (cid : Z) (v : jsstring) (l : list Conversation.t) :
  find (fun c => cid =? Conversation.id c)
       (map (fun c => if cid =? Conversation.id c
                      then Conversation.withTitle c v else c) l)
  = option_map (fun c => Conversation.withTitle c v)
               (find (fun c => cid =? Conversation.id c) l).
Proof.
  induction l as [|x l IH]; [reflexivity|].
  cbn. destruct (cid =? Conversation.id x) eqn:E; cbn; rewrite E.
  - reflexivity.
  - exact IH.
Qed.



(** X7.  A rename of the active conversation, listed and with id not 0,
    that is answered 2xx shows in the header at once: the header becomes the
    draft title, or "Chat" when the draft is empty. *)
Theorem header_follows_rename (w : World) (s : Chat.State) (cid : Z) :
  Chat.editingConversationId s = Some cid ->
  Chat.currentConversationId s = Some cid ->
  cid <> 0 ->
  In cid (map Conversation.id (Chat.conversations s)) ->
  accepted (patchResponse w) = true ->
  ChatView.headerTitle (fst (Chat.run w Chat.OpSaveTitle s))
    = ChatView.orDefault (Chat.editTitle s) (lit "Chat").
Proof.
  intros He Hc Hz Hin Ha.
  rewrite (saveTitle_accepted w s cid He Hz Ha).
  unfold ChatView.headerTitle.
  cbn [fst Chat.conversations Chat.currentConversationId].
  rewrite Hc. cbn [strictEqId]. rewrite find_after_titles.
  destruct (find (fun c => cid =? Conversation.id c) (Chat.conversations s))
    as [c|] eqn:F; [reflexivity|].
  exfalso. apply in_map_iff in Hin. destruct Hin as [c [E Hin]].
  apply (find_none _ _ F) in Hin. cbn in Hin. rewrite E, Z.eqb_refl in Hin.
  discriminate.
Qed.

Lemma header_follows_rename_witness :
  ChatView.headerTitle (fst (Chat.run servedWorld Chat.OpSaveTitle renaming))
    = lit "Rome".
Proof.
  assert (Hz : 7 <> 0) by discriminate.
  apply (header_follows_rename servedWorld renaming 7 eq_refl eq_refl Hz).
  - left. reflexivity.
  - reflexivity.
Defined.

(** ** The suggestion buttons *)

Lemma whitespaceOnly_false_truthy (t : jsstring) :
  whitespaceOnly t = false -> truthyString t = true.
Proof. destruct t; [discriminate|reflexivity]. Qed.

Lemma in_firstn_in {A : Type} (n : nat) (l : list A) (x : A) :
  In x (firstn n l) -> In x l.
Proof.
  revert l. induction n as [|n IH]; intros [|a l]; cbn; try contradiction.
  intros [E|H]; [left; exact E|right; now apply IH].
Qed.

(** X8.  Suggestions get a button only inside the chat area, that is with
    an active conversation.  Over an empty stream the whole feed is offered
    as a grid; over a non-empty stream the first three are offered as
    chips; the two are never rendered together, and every suggestion
    offered is an element of the feed. *)
Theorem suggestion_buttons_offered (s : Chat.State) :
  (ChatView.suggestionPanel s = [] \/ ChatView.suggestionChips s = [])
  /\ (List.length (ChatView.suggestionChips s) <= 3)%nat
  /\ (forall sg, In sg (ChatView.suggestionButtons s) ->
                 In sg (Chat.suggestions s) /\ Chat.hasActive s = true)
  /\ (Chat.hasActive s = true -> Chat.messages s = [] ->
      ChatView.suggestionButtons s = Chat.suggestions s)
  /\ (Chat.hasActive s = true -> Chat.messages s <> [] ->
      ChatView.suggestionButtons s = firstn 3 (Chat.suggestions s)).
Proof.
  unfold ChatView.suggestionButtons, ChatView.suggestionPanel,
    ChatView.suggestionChips, ChatView.chatAreaShown, Chat.hasActive.
  destruct (Chat.messages s) as [|m ms]; cbn [List.length Nat.eqb Nat.ltb Nat.leb andb].
  - split; [right; reflexivity|]. split; [cbn; lia|]. split; [|split].
    + intros sg. destruct (truthyId _); [|intros []].
      rewrite app_nil_r. destruct (Chat.suggestions s); [intros []|].
      cbn. auto.
    + intros ->. rewrite app_nil_r. destruct (Chat.suggestions s); reflexivity.
    + intros _ H. contradiction.
  - split; [left; reflexivity|]. split; [|split; [|split]].
    + destruct (Chat.suggestions s) as [|x l]; cbn -[firstn]; [lia|].
      apply firstn_le_length.
    + intros sg. destruct (truthyId _); [|intros []].
      destruct (Chat.suggestions s) as [|x l]; [intros []|].
      cbn -[firstn In]. intros H. split; [|reflexivity].
      now apply (in_firstn_in 3).
    + intros _ H. discriminate.
    + intros -> _. destruct (Chat.suggestions s); reflexivity.
Qed.

Lemma suggestion_buttons_offered_witness :
  ChatView.suggestionButtons reading = sampleSuggestions ++ [lit "Plan a trip"].
Proof.
  apply (suggestion_buttons_offered reading); [reflexivity|discriminate].
Defined.

(** X9.  Clicking an offered suggestion that is not white space only sends
    that suggestion, whatever the draft in the message box is: the request
    carries the suggestion, the optimistic message has it as content, and
    the draft is cleared. *)
Theorem suggestion_click_sends_it (w : World) (s : Chat.State) (sg : jsstring) :
  In sg (ChatView.suggestionButtons s) ->
  whitespaceOnly sg = false ->
  let s' := fst (Chat.run w (Chat.OpSend (Some sg)) s) in
  let tr := snd (Chat.run w (Chat.OpSend (Some sg)) s) in
  hd_error (requests tr)
    = Some (POST_message (token w) (Chat.currentConversationId s) sg)
  /\ Chat.input s' = []
  /\ Chat.loading s' = false
  /\ exists rest,
      Chat.messages s' = Chat.messages s ++ Message.mk (now w) user sg :: rest.
Proof.
  intros Hin Hw. cbv zeta.
  assert (Ha : Chat.hasActive s = true).
  { unfold ChatView.suggestionButtons, ChatView.chatAreaShown in Hin.
    unfold Chat.hasActive. destruct (truthyId _); [reflexivity|contradiction]. }
  assert (Hc : orString (Some sg) (Chat.input s) = sg).
  { unfold orString. cbn [truthyToken].
    rewrite (whitespaceOnly_false_truthy sg Hw). reflexivity. }
  assert (Hw' : whitespaceOnly (orString (Some sg) (Chat.input s)) = false)
    by (rewrite Hc; exact Hw).
  unfold Chat.run, Chat.handler.
  destruct (delivered (messageResponse w)) as [reply|] eqn:Hd.
  - rewrite (sendMessage_delivered w s (Some sg) reply Hw' Ha Hd). rewrite Hc.
    match goal with
    | |- context [Chat.fetchConversations s w ?st] => set (sent := st)
    end.
    pose proof (fetchConversations_active_frame s sent w Ha) as F1.
    destruct (Chat.fetchConversations s w sent) as [[u1 s1] t1].
    pose proof (fetchSuggestions_frame s1 w) as F2.
    destruct (Chat.fetchSuggestions w s1) as [[u2 s2] t2].
    unfold finalState in *. cbn [fst snd] in *.
    split; [reflexivity|]. rewrite F2, F1.
    split; [reflexivity|]. split; [reflexivity|].
    exists [reply]. subst sent. cbn. rewrite <- app_assoc. reflexivity.
  - destruct (sendMessage_not_delivered w s (Some sg) Hw' Ha Hd) as [tr [E _]].
    rewrite E, Hc. split; [reflexivity|]. split; [reflexivity|].
    split; [reflexivity|]. exists []. reflexivity.
Qed.

Lemma suggestion_click_sends_it_witness :
  hd_error (requests (snd (Chat.run servedWorld
                             (Chat.OpSend (Some (lit "What changed last week?")))
                             reading)))
    = Some (POST_message sampleToken (Some 7) (lit "What changed last week?"))
  /\ Chat.input (fst (Chat.run servedWorld
                        (Chat.OpSend (Some (lit "What changed last week?")))
                        reading)) = [].
Proof.
  assert (Hin : In (lit "What changed last week?")
                   (ChatView.suggestionButtons reading)).
  { right. left. reflexivity. }
  pose proof (suggestion_click_sends_it servedWorld reading
                (lit "What changed last week?") Hin eq_refl) as [H1 [H2 _]].
  split; [exact H1|exact H2].
Defined.

(** ** What a run may do *)

Ltac unfold_handlers :=
  unfold Chat.run, Chat.handler, Chat.sendMessage, Chat.saveTitle,
    Chat.deleteConversation, Chat.createNewConversation,
    Chat.fetchConversations, Chat.fetchSuggestions.

Ltac branch_cases :=
  repeat match goal with
         | |- context [match ?x with Rejected => _ | Resolved _ _ => _ end] =>
             destruct x as [|[|] [?|]]
         | |- context [if ?b then _ else _] => destruct b
         | |- context [match ?l with [] => _ | _ :: _ => _ end] => destruct l
         end.

Ltac run_cases := unfold_handlers; branch_cases.

(** X10.  In every world, from every state, every request an operation
    issues carries the token localStorage holds at that moment; no operation
    issues more than three requests, and at most one when there is no usable
    token; selecting a row, opening or cancelling the edit session and
    typing issue none and log nothing. *)
Theorem network_discipline (w : World) (op : Chat.Op) (s : Chat.State) :
  let tr := snd (Chat.run w op s) in
  Forall (fun q => requestToken q = token w) (requests tr)
  /\ (List.length (requests tr) <= 3)%nat
  /\ (truthyToken (token w) = false -> (List.length (requests tr) <= 1)%nat)
  /\ match op with
     | Chat.OpSelect _ | Chat.OpStartEditing _ | Chat.OpEditTitle _
     | Chat.OpCancelEditing | Chat.OpInput _ => tr = []
     | _ => True
     end.
Proof.
  cbv zeta. destruct (truthyToken (token w)) eqn:Ht;
    destruct op; unfold_handlers; rewrite ?Ht; cbn [negb]; branch_cases; cbn;
    (split; [repeat constructor|]);
    (split; [lia|]);
    (split; [first [discriminate | intros _; lia]|]);
    first [exact I | reflexivity].
Qed.

(** X11.  Which cells an operation can write.  The pending flag is clear
    after every run that started with it clear.  The feed is written only by
    a refresh or a send; the draft message only by typing or a send; the
    edit session only by the four edit operations; the stream only by load,
    select, create, delete and send; the list only by load, create, rename,
    delete and send; the active id only by load, select, create and
    delete. *)
Theorem cells_written_by (w : World) (op : Chat.Op) (s : Chat.State) :
  let s' := fst (Chat.run w op s) in
  (Chat.loading s = false -> Chat.loading s' = false)
  /\ match op with
     | Chat.OpRefreshSuggestions | Chat.OpSend _ => True
     | _ => Chat.suggestions s' = Chat.suggestions s
     end
  /\ match op with
     | Chat.OpInput _ | Chat.OpSend _ => True
     | _ => Chat.input s' = Chat.input s
     end
  /\ match op with
     | Chat.OpStartEditing _ | Chat.OpEditTitle _ | Chat.OpSaveTitle
     | Chat.OpCancelEditing => True
     | _ => Chat.editingConversationId s' = Chat.editingConversationId s
            /\ Chat.editTitle s' = Chat.editTitle s
     end
  /\ match op with
     | Chat.OpLoad | Chat.OpSelect _ | Chat.OpCreate | Chat.OpDelete _
     | Chat.OpSend _ => True
     | _ => Chat.messages s' = Chat.messages s
     end
  /\ match op with
     | Chat.OpLoad | Chat.OpCreate | Chat.OpSaveTitle | Chat.OpDelete _
     | Chat.OpSend _ => True
     | _ => Chat.conversations s' = Chat.conversations s
     end
  /\ match op with
     | Chat.OpLoad | Chat.OpSelect _ | Chat.OpCreate | Chat.OpDelete _ => True
     | _ => Chat.currentConversationId s' = Chat.currentConversationId s
     end.
Proof.
  cbv zeta.
  destruct op;
    try solve [run_cases; cbn; auto 10].
  (* send *)
  set (content := orString suggestionContent (Chat.input s)).
  destruct (whitespaceOnly content) eqn:Hw.
  { rewrite (send_noop_guard w s suggestionContent (or_introl Hw)). auto 10. }
  destruct (Chat.hasActive s) eqn:Ha.
  2:{ rewrite (send_noop_guard w s suggestionContent (or_intror Ha)). auto 10. }
  unfold Chat.run, Chat.handler.
  destruct (delivered (messageResponse w)) as [reply|] eqn:Hd.
  - rewrite (sendMessage_delivered w s suggestionContent reply Hw Ha Hd).
    match goal with
    | |- context [Chat.fetchConversations s w ?st] => set (sent := st)
    end.
    pose proof (fetchConversations_active_frame s sent w Ha) as F1.
    destruct (Chat.fetchConversations s w sent) as [[u1 s1] t1].
    pose proof (fetchSuggestions_frame s1 w) as F2.
    destruct (Chat.fetchSuggestions w s1) as [[u2 s2] t2].
    unfold finalState in *. cbn [fst snd] in *.
    rewrite F2, F1. cbn. auto 10.
  - destruct (sendMessage_not_delivered w s suggestionContent Hw Ha Hd)
      as [tr [E _]].
    rewrite E. cbn. auto 10.
Qed.

Lemma cells_written_by_witness :
  Chat.loading (fst (Chat.run offlineWorld (Chat.OpSend None) chatting)) = false.
Proof.
  apply (cells_written_by offlineWorld (Chat.OpSend None) chatting). reflexivity.
Defined.

Lemma network_discipline_witness :
  (List.length (requests (snd (Chat.run signedOutWorld (Chat.OpSend None) chatting)))
   <= 1)%nat.
Proof.
  apply (network_discipline signedOutWorld (Chat.OpSend None) chatting).
  reflexivity.
Defined.

(** * Further properties of the side panel *)

(** X12.  The side panel and the chat page agree.  Started from the
    side-panel view of a chat-page state, the panel's select, load and
    create end in the side-panel view of the state the chat page's handler
    ends in, with the same events; its send ends in the view of the state
    the chat page's send of the draft ends in, and issues the same requests
    but for the suggestion refresh. *)
Theorem sidebar_agrees_with_chat (r s : Chat.State) (w : World)
        (c : Conversation.t) :
  ChatSidebar.selectConversation c (ChatSidebar.ofChat s)
    = (tt, ChatSidebar.ofChat (finalState (Chat.selectConversation c s)), [])
  /\ ChatSidebar.fetchConversations (ChatSidebar.ofChat r) w (ChatSidebar.ofChat s)
     = (tt, ChatSidebar.ofChat (finalState (Chat.fetchConversations r w s)),
        trace (Chat.fetchConversations r w s))
  /\ ChatSidebar.createNewConversation (ChatSidebar.ofChat r) w (ChatSidebar.ofChat s)
     = (tt, ChatSidebar.ofChat (finalState (Chat.createNewConversation r w s)),
        trace (Chat.createNewConversation r w s))
  /\ finalState (ChatSidebar.sendMessage (ChatSidebar.ofChat r) w
                                         (ChatSidebar.ofChat s))
     = ChatSidebar.ofChat (finalState (Chat.sendMessage r w None s))
  /\ requests (trace (ChatSidebar.sendMessage (ChatSidebar.ofChat r) w
                                              (ChatSidebar.ofChat s)))
     = filter (fun q => match q with GET_suggestions _ => false | _ => true end)
              (requests (trace (Chat.sendMessage r w None s))).
Proof.
  split; [apply sidebar_selectConversation|].
  split; [apply sidebar_fetchConversations|].
  split; [apply sidebar_createNewConversation|].
  apply sidebar_sendMessage.
Qed.

(** X13.  The side panel's send.  With a draft that is empty or white space
    only, or with no active conversation, it does nothing.  Otherwise it
    appends the optimistic message and clears the draft; when the reply is
    delivered the stream ends with the optimistic message and the reply, the
    active id is kept, the pending flag is cleared, and the requests are the
    send followed, with a usable token, by the list reload and never by a
    suggestion request; when nothing is delivered the optimistic message
    stays, the rest of the state is as before and the send is the only
    request. *)
Theorem sidebar_send (w : World) (s : ChatSidebar.State) :
  let out := ChatSidebar.sendMessage s w s in
  let userMessage := Message.mk (now w) user (ChatSidebar.input s) in
  let post := POST_message (token w) (ChatSidebar.currentConversationId s)
                           (ChatSidebar.input s) in
  (whitespaceOnly (ChatSidebar.input s) = true
   \/ truthyId (ChatSidebar.currentConversationId s) = false ->
   out = (tt, s, []))
  /\ (whitespaceOnly (ChatSidebar.input s) = false ->
      truthyId (ChatSidebar.currentConversationId s) = true ->
      (forall reply,
          delivered (messageResponse w) = Some reply ->
          ChatSidebar.messages (finalState out)
            = ChatSidebar.messages s ++ [userMessage; reply]
          /\ ChatSidebar.currentConversationId (finalState out)
             = ChatSidebar.currentConversationId s
          /\ ChatSidebar.input (finalState out) = []
          /\ ChatSidebar.loading (finalState out) = false
          /\ requests (trace out)
             = post :: (if truthyToken (token w)
                        then [GET_conversations (token w)] else []))
      /\ (delivered (messageResponse w) = None ->
          finalState out
            = ChatSidebar.mkState (ChatSidebar.conversations s)
                (ChatSidebar.currentConversationId s)
                (ChatSidebar.messages s ++ [userMessage]) [] false
          /\ requests (trace out) = [post])).
Proof.
  cbv zeta. unfold ChatSidebar.sendMessage. rewrite truthy_trim, negb_involutive.
  split.
  - intros [-> | ->]; [reflexivity|]. rewrite orb_true_r. reflexivity.
  - intros -> Ha. rewrite Ha. cbn [negb orb]. split.
    + intros reply Hd.
      destruct (messageResponse w) as [|[|] [d|]]; try discriminate.
      injection Hd as ->. unfold ChatSidebar.fetchConversations.
      rewrite Ha. cbn [negb].
      destruct (truthyToken (token w));
        [destruct (listResponse w) as [|[|] [[|first rest]|]]|];
        cbn; rewrite <- ?app_assoc; auto 10.
    + intros Hd.
      destruct (messageResponse w) as [|[|] [d|]]; try discriminate;
        cbn; auto.
Qed.

Lemma sidebar_send_witness :
  ChatSidebar.messages
    (finalState (ChatSidebar.sendMessage (ChatSidebar.ofChat chatting) servedWorld
                                         (ChatSidebar.ofChat chatting)))
  = [Message.mk 1700000000000 user (lit "Hello"); serverReply]
  /\ requests
       (trace (ChatSidebar.sendMessage (ChatSidebar.ofChat chatting) servedWorld
                                       (ChatSidebar.ofChat chatting)))
     = [POST_message sampleToken (Some 7) (lit "Hello");
        GET_conversations sampleToken].
Proof.
  destruct (proj1 (proj2 (sidebar_send servedWorld (ChatSidebar.ofChat chatting))
                     eq_refl eq_refl) serverReply eq_refl)
    as [Hm [_ [_ [_ Hr]]]].
  split; [exact Hm|exact Hr].
Defined.

(** X14.  The side panel reloads the list each time it is opened and does
    nothing when it is closed.  The reload on opening keeps an active
    conversation and its stream, optimistic messages included, and replaces
    only the list; with none active and a non-empty list delivered it
    selects the list's first element. *)
Theorem sidebar_open_reloads (w : World) (s : ChatSidebar.State) :
  let s' := finalState (sidebarOpenEffect true s w s) in
  sidebarOpenEffect false s w s = (tt, s, [])
  /\ (truthyId (ChatSidebar.currentConversationId s) = true ->
      s' = ChatSidebar.withConversations (ChatSidebar.conversations s') s
      /\ forall data,
          truthyToken (token w) = true ->
          delivered (listResponse w) = Some data ->
          ChatSidebar.conversations s' = data)
  /\ (truthyId (ChatSidebar.currentConversationId s) = false ->
      forall first rest,
        truthyToken (token w) = true ->
        delivered (listResponse w) = Some (first :: rest) ->
        s' = ChatSidebar.mkState (first :: rest) (Some (Conversation.id first))
               (Conversation.messagesOrEmpty first)
               (ChatSidebar.input s) (ChatSidebar.loading s))
  /\ (delivered (listResponse w) = None -> s' = s).
Proof.
  cbv zeta. unfold sidebarOpenEffect, ChatSidebar.fetchConversations.
  split; [reflexivity|]. split; [|split].
  - intros Ha. rewrite Ha. cbn [negb]. split.
    + destruct s. destruct (truthyToken (token w)); [|reflexivity].
      destruct (listResponse w) as [|[|] [[|first rest]|]]; reflexivity.
    + intros data -> Hd.
      destruct (listResponse w) as [|[|] [d|]]; try discriminate.
      injection Hd as ->. destruct data; reflexivity.
  - intros Ha first rest -> Hd. rewrite Ha.
    destruct (listResponse w) as [|[|] [d|]]; try discriminate.
    injection Hd as ->. reflexivity.
  - intros Hd. destruct (truthyToken (token w)); [|reflexivity].
    destruct (listResponse w) as [|[|] [d|]]; try discriminate; reflexivity.
Qed.

Lemma sidebar_open_reloads_witness :
  ChatSidebar.messages
    (finalState (sidebarOpenEffect true (ChatSidebar.ofChat reading) prunedWorld
                                   (ChatSidebar.ofChat reading)))
  = [greeting; answer]
  /\ ChatSidebar.conversations
       (finalState (sidebarOpenEffect true (ChatSidebar.ofChat reading) prunedWorld
                                      (ChatSidebar.ofChat reading)))
     = [conv8].
Proof.
  destruct (proj1 (proj2 (sidebar_open_reloads prunedWorld
                            (ChatSidebar.ofChat reading))) eq_refl) as [Hs Hl].
  split.
  - rewrite Hs. reflexivity.
  - exact (Hl [conv8] eq_refl eq_refl).
Defined.

(** * The documents page *)

Lemma pageRequests_app (t1 t2 : list PageEvent) :
  pageRequests (t1 ++ t2) = pageRequests t1 ++ pageRequests t2.
Proof. unfold pageRequests. apply flat_map_app. Qed.

Lemma alerts_app (t1 t2 : list PageEvent) :
  alerts (t1 ++ t2) = alerts t1 ++ alerts t2.
Proof. unfold alerts. apply flat_map_app. Qed.

Ltac unfold_documents :=
  unfold Documents.run, Documents.handler, Documents.handleUpload,
    Documents.handleProcess, Documents.fetchDocuments, actBind,
    Documents.setDocuments, Documents.setTitle, Documents.setFile,
    Documents.setUploading, Documents.setProcessingId, Documents.fetch,
    Documents.alert, Documents.consoleError, actModify, actEmit, actRet.

Section DocumentsPage.
Variables (w : Documents.World) (s : Documents.State).

(** The list after a reload: what the server delivers, or the list before. *)
Let reloaded : list Document.t :=
  match delivered (Documents.documentsResponse w) with
  | Some data => data
  | None => Documents.documents s
  end.

Lemma handleUpload_accepted (picked : File) :
  Documents.file s = Some picked ->
  Documents.title s <> [] ->
  accepted (Documents.uploadResponse w) = true ->
  exists tl,
    Documents.run w Documents.OpUpload s =
      (Documents.mkState reloaded false (Documents.processingId s) None [],
       [PageFetch (POST_documents (Documents.token w) picked (Documents.title s));
        ResetFileInput;
        PageFetch (GET_documents (Documents.token w))] ++ tl)
    /\ pageRequests tl = [] /\ alerts tl = [].
Proof.
  intros Hf Ht Ha. unfold reloaded. unfold_documents. rewrite Hf.
  destruct (Documents.title s) as [|c cs]; [contradiction|].
  destruct (Documents.uploadResponse w) as [|[|] b]; try discriminate.
  destruct (Documents.documentsResponse w) as [|[|] [d|]]; cbn;
    eexists; (split; [reflexivity|]); split; reflexivity.
Qed.

Lemma handleUpload_not_accepted (picked : File) :
  Documents.file s = Some picked ->
  Documents.title s <> [] ->
  accepted (Documents.uploadResponse w) = false ->
  Documents.run w Documents.OpUpload s =
    (Documents.withUploading false s,
     PageFetch (POST_documents (Documents.token w) picked (Documents.title s))
     :: match Documents.uploadResponse w with
        | Rejected => [PageConsoleError (lit "Error uploading:")]
        | Resolved _ _ => [Alert (lit "Upload failed")]
        end).
Proof.
  intros Hf Ht Ha. unfold_documents. rewrite Hf.
  destruct (Documents.title s) as [|c cs]; [contradiction|].
  destruct (Documents.uploadResponse w) as [|[|] b]; try discriminate;
    reflexivity.
Qed.

Lemma handleProcess_accepted (docId : Z) :
  accepted (Documents.processResponse w) = true ->
  exists tl,
    Documents.run w (Documents.OpProcess docId) s =
      (Documents.mkState reloaded (Documents.uploading s) None
                         (Documents.file s) (Documents.title s),
       [PageFetch (POST_process (Documents.token w) docId);
        PageFetch (GET_documents (Documents.token w))] ++ tl)
    /\ pageRequests tl = [] /\ alerts tl = [].
Proof.
  intros Ha. unfold reloaded. unfold_documents.
  destruct (Documents.processResponse w) as [|[|] b]; try discriminate.
  destruct (Documents.documentsResponse w) as [|[|] [d|]]; cbn;
    eexists; (split; [reflexivity|]); split; reflexivity.
Qed.

Lemma handleProcess_not_accepted (docId : Z) :
  accepted (Documents.processResponse w) = false ->
  Documents.run w (Documents.OpProcess docId) s =
    (Documents.withProcessingId None s,
     PageFetch (POST_process (Documents.token w) docId)
     :: match Documents.processResponse w with
        | Rejected => [PageConsoleError (lit "Error processing document:")]
        | Resolved _ _ => [Alert (lit "Processing failed")]
        end).
Proof.
  intros Ha. unfold_documents.
  destruct (Documents.processResponse w) as [|[|] b]; try discriminate;
    reflexivity.
Qed.

End DocumentsPage.

(** X15.  An upload with no file picked or with an empty title does
    nothing and issues no request.  With both, the upload request goes out
    with the file and the title, and the uploading flag is clear at the end
    whatever the answer.  Answered 2xx, the form is reset (title emptied,
    file dropped, file input cleared), no alert is raised, and the list is
    reloaded: the requests are the upload and then the list, and the list
    becomes what the server delivers, or stays when nothing is delivered. *)
Theorem upload_submits (w : Documents.World) (s : Documents.State) :
  let s' := fst (Documents.run w Documents.OpUpload s) in
  let tr := snd (Documents.run w Documents.OpUpload s) in
  (Documents.file s = None \/ Documents.title s = [] -> s' = s /\ tr = [])
  /\ (forall picked,
         Documents.file s = Some picked ->
         Documents.title s <> [] ->
         hd_error (pageRequests tr)
           = Some (POST_documents (Documents.token w) picked (Documents.title s))
         /\ Documents.uploading s' = false
         /\ Documents.processingId s' = Documents.processingId s
         /\ (accepted (Documents.uploadResponse w) = true ->
             Documents.title s' = []
             /\ Documents.file s' = None
             /\ In ResetFileInput tr
             /\ alerts tr = []
             /\ pageRequests tr
                = [POST_documents (Documents.token w) picked (Documents.title s);
                   GET_documents (Documents.token w)]
             /\ Documents.documents s'
                = match delivered (Documents.documentsResponse w) with
                  | Some data => data
                  | None => Documents.documents s
                  end)).
Proof.
  cbv zeta. split.
  - unfold Documents.run, Documents.handler, Documents.handleUpload.
    intros [-> | Ht]; [split; reflexivity|].
    rewrite Ht. destruct (Documents.file s); split; reflexivity.
  - intros picked Hf Ht.
    destruct (accepted (Documents.uploadResponse w)) eqn:Ha.
    + destruct (handleUpload_accepted w s picked Hf Ht Ha) as [tl [E [Hq Hal]]].
      rewrite E. cbn [fst snd Documents.uploading Documents.processingId
                      Documents.title Documents.file Documents.documents].
      rewrite pageRequests_app, alerts_app, Hq, Hal.
      split; [reflexivity|]. split; [reflexivity|]. split; [reflexivity|].
      intros _. split; [reflexivity|]. split; [reflexivity|].
      split; [right; left; reflexivity|].
      split; [reflexivity|]. split; reflexivity.
    + rewrite (handleUpload_not_accepted w s picked Hf Ht Ha).
      split; [destruct (Documents.uploadResponse w); reflexivity|].
      split; [reflexivity|]. split; [reflexivity|]. discriminate.
Qed.

Lemma upload_submits_witness :
  Documents.documents (fst (Documents.run docsServed Documents.OpUpload filledIn))
    = [handbook; minutes]
  /\ fst (Documents.run docsServed Documents.OpUpload
            (Documents.withTitle [] filledIn))
     = Documents.withTitle [] filledIn.
Proof.
  split.
  - assert (Ht : Documents.title filledIn <> []) by discriminate.
    apply (proj2 (upload_submits docsServed filledIn) pickedFile eq_refl Ht).
    reflexivity.
  - apply (proj1 (upload_submits docsServed (Documents.withTitle [] filledIn))).
    right. reflexivity.
Defined.

(** X16.  An upload that fails keeps the form as the user filled it in
    (title and file), reloads nothing and leaves the list alone; only the
    uploading flag is cleared.  The user is told by an alert, "Upload
    failed", only when the server answered with a status that is not 2xx;
    when the request got no answer at all there is no alert, only a line on
    the console. *)
Theorem upload_failure (w : Documents.World) (s : Documents.State)
        (picked : File) :
  let s' := fst (Documents.run w Documents.OpUpload s) in
  let tr := snd (Documents.run w Documents.OpUpload s) in
  Documents.file s = Some picked ->
  Documents.title s <> [] ->
  failed (Documents.uploadResponse w) ->
  s' = Documents.withUploading false s
  /\ pageRequests tr
     = [POST_documents (Documents.token w) picked (Documents.title s)]
  /\ ~ In ResetFileInput tr
  /\ ((exists body, Documents.uploadResponse w = Resolved false body) ->
      alerts tr = [lit "Upload failed"])
  /\ (Documents.uploadResponse w = Rejected ->
      alerts tr = []
      /\ In (PageConsoleError (lit "Error uploading:")) tr).
Proof.
  intros s' tr Hf Ht Hfail. subst s' tr.
  rewrite (handleUpload_not_accepted w s picked Hf Ht
             (failed_not_accepted _ Hfail)).
  cbn [fst snd]. split; [reflexivity|].
  destruct Hfail as [-> | [body ->]]; cbn.
  - split; [reflexivity|]. split; [intuition discriminate|].
    split; [intros [b E]; discriminate|]. intros _. split; [reflexivity|].
    right. left. reflexivity.
  - split; [reflexivity|]. split; [intuition discriminate|].
    split; [reflexivity|]. discriminate.
Qed.

Lemma upload_failure_witness :
  alerts (snd (Documents.run docsRefused Documents.OpUpload filledIn))
    = [lit "Upload failed"]
  /\ alerts (snd (Documents.run docsOffline Documents.OpUpload filledIn)) = []
  /\ fst (Documents.run docsOffline Documents.OpUpload filledIn) = filledIn.
Proof.
  assert (Ht : Documents.title filledIn <> []) by discriminate.
  assert (H1 : failed (Documents.uploadResponse docsRefused))
    by (right; exists None; reflexivity).
  assert (H2 : failed (Documents.uploadResponse docsOffline))
    by (left; reflexivity).
  destruct (upload_failure docsRefused filledIn pickedFile eq_refl Ht H1)
    as [_ [_ [_ [Ha _]]]].
  destruct (upload_failure docsOffline filledIn pickedFile eq_refl Ht H2)
    as [Hs [_ [_ [_ Hb]]]].
  split; [apply Ha; exists None; reflexivity|].
  split; [exact (proj1 (Hb eq_refl))|exact Hs].
Defined.

(** X17.  Processing a document marks it as being processed for the
    duration of the run only: the marker is null at the end whatever the
    answer.  Answered 2xx, the list is reloaded (requests: process, then
    list) and becomes what the server delivers; answered with another
    status, the alert "Processing failed" is raised and the state is as
    before; with no answer there is no alert and the state is as before. *)
Theorem process_runs (w : Documents.World) (s : Documents.State) (docId : Z) :
  let s' := fst (Documents.run w (Documents.OpProcess docId) s) in
  let tr := snd (Documents.run w (Documents.OpProcess docId) s) in
  Documents.processingId s' = None
  /\ hd_error tr = Some (PageFetch (POST_process (Documents.token w) docId))
  /\ (accepted (Documents.processResponse w) = true ->
      pageRequests tr = [POST_process (Documents.token w) docId;
                         GET_documents (Documents.token w)]
      /\ alerts tr = []
      /\ s' = Documents.mkState
                (match delivered (Documents.documentsResponse w) with
                 | Some data => data
                 | None => Documents.documents s
                 end)
                (Documents.uploading s) None (Documents.file s)
                (Documents.title s))
  /\ ((exists body, Documents.processResponse w = Resolved false body) ->
      alerts tr = [lit "Processing failed"]
      /\ pageRequests tr = [POST_process (Documents.token w) docId]
      /\ s' = Documents.withProcessingId None s)
  /\ (Documents.processResponse w = Rejected ->
      alerts tr = []
      /\ pageRequests tr = [POST_process (Documents.token w) docId]
      /\ s' = Documents.withProcessingId None s).
Proof.
  cbv zeta. destruct (accepted (Documents.processResponse w)) eqn:Ha.
  - destruct (handleProcess_accepted w s docId Ha) as [tl [E [Hq Hal]]].
    rewrite E. cbn [fst snd Documents.processingId].
    rewrite pageRequests_app, alerts_app, Hq, Hal.
    split; [reflexivity|]. split; [reflexivity|].
    split; [intros _; split; [reflexivity|split; reflexivity]|].
    destruct (Documents.processResponse w) as [|[|] b]; try discriminate.
    split; [intros [body Eb]; discriminate|discriminate].
  - rewrite (handleProcess_not_accepted w s docId Ha). cbn [fst snd].
    split; [reflexivity|]. split; [reflexivity|].
    split; [discriminate|].
    destruct (Documents.processResponse w) as [|[|] b]; try discriminate.
    + split; [intros [body Eb]; discriminate|].
      intros _. split; [reflexivity|split; reflexivity].
    + split; [intros _; split; [reflexivity|split; reflexivity]|discriminate].
Qed.

Lemma process_runs_witness :
  Documents.documents (fst (Documents.run docsServed (Documents.OpProcess 3) filledIn))
    = [handbook; minutes]
  /\ alerts (snd (Documents.run docsRefused (Documents.OpProcess 3) filledIn))
     = [lit "Processing failed"]
  /\ alerts (snd (Documents.run docsOffline (Documents.OpProcess 3) filledIn)) = [].
Proof.
  destruct (process_runs docsServed filledIn 3) as [_ [_ [Hok _]]].
  destruct (process_runs docsRefused filledIn 3) as [_ [_ [_ [Hno _]]]].
  destruct (process_runs docsOffline filledIn 3) as [_ [_ [_ [_ Hoff]]]].
  split; [|split].
  - rewrite (proj2 (proj2 (Hok eq_refl))). reflexivity.
  - apply Hno. exists None. reflexivity.
  - apply Hoff. reflexivity.
Defined.

(** X18.  Every run of the documents page, in every world and from every
    state: the uploading flag and the processing marker are clear at the
    end if they were clear at the start; the list is either left as it was
    or replaced whole by the list the server delivered; every request
    carries the stored token, null included, since no handler of this page
    tests it; at most two requests are issued; and an alert is raised only
    after an answer with a status that is not 2xx. *)
Theorem documents_page_discipline (w : Documents.World) (op : Documents.Op)
        (s : Documents.State) :
  let s' := fst (Documents.run w op s) in
  let tr := snd (Documents.run w op s) in
  (Documents.uploading s = false -> Documents.uploading s' = false)
  /\ (Documents.processingId s = None -> Documents.processingId s' = None)
  /\ (Documents.documents s' = Documents.documents s
      \/ delivered (Documents.documentsResponse w)
         = Some (Documents.documents s'))
  /\ Forall (fun q => Documents.requestToken q = Some (Documents.token w))
            (pageRequests tr)
  /\ (List.length (pageRequests tr) <= 2)%nat
  /\ (alerts tr <> [] ->
      (exists body, Documents.uploadResponse w = Resolved false body)
      \/ (exists body, Documents.processResponse w = Resolved false body))
  /\ (op = Documents.OpMount ->
      pageRequests tr = [GET_documents (Documents.token w)]).
Proof.
  cbv zeta. destruct op; unfold_documents;
    repeat match goal with
           | |- context [match ?x with Rejected => _ | Resolved _ _ => _ end] =>
               destruct x as [|[|] [?|]] eqn:?
           | |- context [match Documents.file s with _ => _ end] =>
               destruct (Documents.file s)
           | |- context [if ?b then _ else _] => destruct b
           end; cbn;
    (split; [auto|]); (split; [auto|]); (split; [auto|]);
    (split; [repeat constructor|]); (split; [lia|]);
    (split; [try (intros H; exfalso; apply H; reflexivity); eauto|]);
    solve [reflexivity | discriminate].
Qed.

Lemma documents_page_discipline_witness :
  pageRequests (snd (Documents.run
                       (Documents.mkWorld None (Resolved false None)
                                          Rejected Rejected)
                       Documents.OpMount Documents.initial))
  = [GET_documents None].
Proof.
  apply (documents_page_discipline
           (Documents.mkWorld None (Resolved false None) Rejected Rejected)
           Documents.OpMount Documents.initial).
  reflexivity.
Defined.

(** * Signing up and logging out *)

Lemma jsEqb_eq (a b : jsstring) : jsEqb a b = true <-> a = b.
Proof.
  revert b. induction a as [|x a IH]; intros [|y b]; cbn;
    try (split; [discriminate|discriminate]); [split; reflexivity|].
  rewrite andb_true_iff, N.eqb_eq, IH. split.
  - intros [-> ->]. reflexivity.
  - intros E. injection E as -> ->. split; reflexivity.
Qed.

Lemma jsEqb_refl (a : jsstring) : jsEqb a a = true.
Proof. now apply jsEqb_eq. Qed.

Lemma jsEqb_neq (a b : jsstring) : a <> b -> jsEqb a b = false.
Proof.
  intros H. destruct (jsEqb a b) eqn:E; [|reflexivity].
  apply jsEqb_eq in E. contradiction.
Qed.

(** X19.  A sign-up whose two passwords differ is stopped before the
    network: the error shown is "Passwords don't match", no request is
    issued, nothing is written to localStorage and the page does not
    navigate. *)
Theorem signup_password_mismatch (resp : Response Signup.Body)
        (s : Signup.State) :
  Signup.password (Signup.form s) <> Signup.confirmPassword (Signup.form s) ->
  Signup.run resp s
  = (Signup.mkState
       (Signup.mkForm (Signup.email (Signup.form s))
                      (Signup.password (Signup.form s))
                      (Signup.confirmPassword (Signup.form s))
                      (lit "Passwords don't match"))
       (Signup.storage s),
     []).
Proof.
  intros H. unfold Signup.run, Signup.handleSubmit.
  rewrite (jsEqb_neq _ _ H). reflexivity.
Qed.

Lemma signup_password_mismatch_witness :
  snd (Signup.run (Resolved true (Some welcomeBody))
                  (Signup.mkState mistypedForm emptyStorage)) = [].
Proof.
  assert (H : Signup.password mistypedForm <> Signup.confirmPassword mistypedForm)
    by discriminate.
  rewrite (signup_password_mismatch (Resolved true (Some welcomeBody))
             (Signup.mkState mistypedForm emptyStorage) H).
  reflexivity.
Defined.



(** X21.  A sign-up with matching passwords that is not answered 2xx with
    a parsable body writes nothing to localStorage and does not navigate.
    The error shown is the server's [error] text, or "Signup failed" when
    the body has none or an empty one, for a parsable answer that is not
    2xx; and "Network error. Please try again." when there was no answer or
    the body did not parse, a 2xx answer included. *)
Theorem signup_refused (resp : Response Signup.Body) (s : Signup.State) :
  let s' := fst (Signup.run resp s) in
  let tr := snd (Signup.run resp s) in
  Signup.password (Signup.form s) = Signup.confirmPassword (Signup.form s) ->
  delivered resp = None ->
  Signup.storage s' = Signup.storage s
  /\ navigations tr = []
  /\ pageRequests tr
     = [POST_signup (Signup.email (Signup.form s))
                    (Signup.password (Signup.form s))]
  /\ Signup.errorShown (Signup.form s')
     = match resp with
       | Resolved false (Some data) =>
           match Signup.error data with
           | Some (c :: msg) => c :: msg
           | _ => lit "Signup failed"
           end
       | _ => lit "Network error. Please try again."
       end.
Proof.
  intros s' tr H Hd. subst s' tr. unfold Signup.run, Signup.handleSubmit.
  rewrite H, jsEqb_refl.
  destruct resp as [|[|] [data|]]; try discriminate; cbn -[lit];
    (split; [reflexivity|]); (split; [reflexivity|]); (split; [reflexivity|]);
    try reflexivity.
  destruct (Signup.error data) as [[|c msg]|]; reflexivity.
Qed.

Lemma signup_refused_witness :
  Signup.errorShown
    (Signup.form (fst (Signup.run (Resolved false (Some refusalBody))
                                  (Signup.mkState signupForm emptyStorage))))
  = lit "Email already registered"
  /\ Signup.errorShown
       (Signup.form (fst (Signup.run (Resolved true None)
                                     (Signup.mkState signupForm emptyStorage))))
     = lit "Network error. Please try again.".
Proof.
  split.
  - apply (signup_refused (Resolved false (Some refusalBody))
             (Signup.mkState signupForm emptyStorage)); reflexivity.
  - apply (signup_refused (Resolved true None)
             (Signup.mkState signupForm emptyStorage)); reflexivity.
Defined.

(** X22.  The credential from sign-up to log-out.  After a successful
    sign-up whose body carries a non-empty token, the chat page mounted on
    that localStorage sends the list request and the suggestion request with
    exactly that token.  After log-out localStorage holds neither "token"
    nor "user_id", keeps every other key, and the page navigates to /login;
    a chat page mounted then issues nothing and stays in its first state,
    while its "+ New Chat" still posts, with a null token. *)
Theorem credential_lifecycle (w : World) (s : Signup.State)
        (data : Signup.Body) (t : jsstring) (st : Chat.State) :
  let signedUp :=
    Signup.storage (fst (Signup.run (Resolved true (Some data)) s)) in
  let loggedOut := snd (fst (Layout.handleLogout signedUp)) in
  Signup.password (Signup.form s) = Signup.confirmPassword (Signup.form s) ->
  Signup.token data = Some t ->
  t <> [] ->
  requests (trace (ChatView.mount (worldWith signedUp w) Chat.initial))
    = [GET_conversations (Some t); GET_suggestions (Some t)]
  /\ snd (Layout.handleLogout signedUp) = [Navigate (lit "/login")]
  /\ getItem (lit "token") loggedOut = None
  /\ getItem (lit "user_id") loggedOut = None
  /\ (forall k, k <> lit "token" -> k <> lit "user_id" ->
                getItem k loggedOut = getItem k (Signup.storage s))
  /\ ChatView.mount (worldWith loggedOut w) Chat.initial = (tt, Chat.initial, [])
  /\ requests (snd (Chat.run (worldWith loggedOut w) Chat.OpCreate st))
     = [POST_conversations None (lit "New Chat")].
Proof.
  intros signedUp loggedOut Hp Ht Hne.
  assert (Htok : getItem (lit "token") signedUp = Some t).
  { subst signedUp. unfold Signup.run, Signup.handleSubmit.
    rewrite Hp, jsEqb_refl, Ht. reflexivity. }
  assert (Hout : getItem (lit "token") loggedOut = None) by reflexivity.
  split.
  { unfold ChatView.mount, bind, trace.
    pose proof (fetchConversations_requests Chat.initial Chat.initial
                  (worldWith signedUp w)) as R1.
    destruct (Chat.fetchConversations Chat.initial (worldWith signedUp w)
                                      Chat.initial) as [[u1 s1] t1].
    pose proof (fetchSuggestions_requests s1 (worldWith signedUp w)) as R2.
    destruct (Chat.fetchSuggestions (worldWith signedUp w) s1) as [[u2 s2] t2].
    unfold trace in *. cbn [snd] in *. rewrite requests_app, R1, R2.
    cbn [worldWith token]. rewrite Htok. cbn [truthyToken].
    destruct t; [contradiction|reflexivity]. }
  split; [reflexivity|]. split; [exact Hout|]. split; [reflexivity|].
  split.
  { intros k H1 H2. subst loggedOut signedUp.
    unfold Signup.run, Signup.handleSubmit. rewrite Hp, jsEqb_refl.
    cbn -[lit numberToString]. unfold getItem, removeItem, setItem.
    rewrite (jsEqb_neq _ _ H1), (jsEqb_neq _ _ H2). reflexivity. }
  split.
  { unfold ChatView.mount, bind.
    rewrite fetchConversations_no_token
      by (cbn [worldWith token]; rewrite Hout; reflexivity).
    rewrite fetchSuggestions_no_token
      by (cbn [worldWith token]; rewrite Hout; reflexivity).
    reflexivity. }
  destruct (delivered (createResponse (worldWith loggedOut w))) as [c|] eqn:Hd.
  - rewrite (createNewConversation_delivered _ st c Hd). reflexivity.
  - apply (createNewConversation_not_delivered _ st Hd).
Qed.

Lemma credential_lifecycle_witness :
  requests (trace (ChatView.mount
                     (worldWith
                        (Signup.storage
                           (fst (Signup.run (Resolved true (Some welcomeBody))
                                   (Signup.mkState signupForm emptyStorage))))
                        offlineWorld)
                     Chat.initial))
  = [GET_conversations (Some (lit "9f3c")); GET_suggestions (Some (lit "9f3c"))].
Proof.
  assert (Hne : lit "9f3c" <> []) by discriminate.
  apply (credential_lifecycle offlineWorld
           (Signup.mkState signupForm emptyStorage) welcomeBody (lit "9f3c")
           Chat.initial eq_refl eq_refl Hne).
Defined.

(** X23.  A 2xx sign-up answer whose body has no [token] field still
    stores one: the string "undefined".  The chat page takes it for a
    credential and sends its requests with it. *)
Theorem signup_without_token (w : World) (s : Signup.State)
        (data : Signup.Body) :
  let signedUp :=
    Signup.storage (fst (Signup.run (Resolved true (Some data)) s)) in
  Signup.password (Signup.form s) = Signup.confirmPassword (Signup.form s) ->
  Signup.token data = None ->
  getItem (lit "token") signedUp = Some (lit "undefined")
  /\ navigations (snd (Signup.run (Resolved true (Some data)) s)) = [lit "/chat"]
  /\ requests (trace (ChatView.mount (worldWith signedUp w) Chat.initial))
     = [GET_conversations (Some (lit "undefined"));
        GET_suggestions (Some (lit "undefined"))].
Proof.
  intros signedUp Hp Ht.
  assert (Htok : getItem (lit "token") signedUp = Some (lit "undefined")).
  { subst signedUp. unfold Signup.run, Signup.handleSubmit.
    rewrite Hp, jsEqb_refl, Ht. reflexivity. }
  split; [exact Htok|]. split.
  { unfold Signup.run, Signup.handleSubmit. rewrite Hp, jsEqb_refl. reflexivity. }
  unfold ChatView.mount, bind, trace.
  pose proof (fetchConversations_requests Chat.initial Chat.initial
                (worldWith signedUp w)) as R1.
  destruct (Chat.fetchConversations Chat.initial (worldWith signedUp w)
                                    Chat.initial) as [[u1 s1] t1].
  pose proof (fetchSuggestions_requests s1 (worldWith signedUp w)) as R2.
  destruct (Chat.fetchSuggestions (worldWith signedUp w) s1) as [[u2 s2] t2].
  unfold trace in *. cbn [snd] in *. rewrite requests_app, R1, R2.
  cbn [worldWith token]. rewrite Htok. reflexivity.
Qed.

Lemma signup_without_token_witness :
  getItem (lit "token")
    (Signup.storage
       (fst (Signup.run (Resolved true (Some (Signup.mkBody None (Some 12) None)))
               (Signup.mkState signupForm emptyStorage))))
  = Some (lit "undefined").
Proof.
  apply (signup_without_token offlineWorld
           (Signup.mkState signupForm emptyStorage)
           (Signup.mkBody None (Some 12) None) eq_refl eq_refl).
Defined.

(** * Rendering code in a message *)

Lemma exec_includes (s g : jsstring) :
  CodeBlock.exec s = Some g ->
  CodeBlock.includes CodeBlock.languagePrefix s = true.
Proof.
  induction s as [|c s IH]; cbn [CodeBlock.exec CodeBlock.includes].
  - unfold CodeBlock.matchHere. cbn. discriminate.
  - unfold CodeBlock.matchHere.
    destruct (CodeBlock.startsWith CodeBlock.languagePrefix (c :: s)) eqn:E.
    + intros _. reflexivity.
    + intros H. rewrite (IH H). apply orb_true_r.
Qed.



(** X24.  Whether a piece of code is rendered inline depends only on
    whether its class name contains "language-": it is inline exactly when
    there is no class name or the class name does not contain that text.
    The regular expression adds nothing to the decision; a class name that
    is just "language-" is rendered as a block. *)
Theorem inline_iff_no_language_class (className : option jsstring) :
  CodeBlock.isInline className
  = match className with
    | Some cn => negb (CodeBlock.includes CodeBlock.languagePrefix cn)
    | None => true
    end.
Proof.
  unfold CodeBlock.isInline, CodeBlock.matchOf.
  destruct className as [cn|]; [|reflexivity].
  destruct (CodeBlock.exec (orString (Some cn) [])) as [g|] eqn:E;
    [|reflexivity].
  apply exec_includes in E. destruct cn as [|c cn]; [discriminate E|].
  cbn [orString truthyToken truthyString] in E. rewrite E. reflexivity.
Qed.



(** * Sequences of operations on the chat page *)

(** X26.  Clicking a suggestion that is the empty string does not send an
    empty message and is not ignored either: it behaves exactly as
    submitting the form, so with a conversation active and a draft that is
    not white space only it sends the draft. *)
Theorem empty_suggestion_submits_draft (w : World) (s : Chat.State) :
  Chat.run w (Chat.OpSend (Some [])) s = Chat.run w (Chat.OpSend None) s
  /\ (Chat.hasActive s = true ->
      whitespaceOnly (Chat.input s) = false ->
      hd_error (requests (snd (Chat.run w (Chat.OpSend (Some [])) s)))
        = Some (POST_message (token w) (Chat.currentConversationId s)
                             (Chat.input s))).
Proof.
  split; [reflexivity|]. intros Ha Hw.
  change (Chat.run w (Chat.OpSend (Some [])) s)
    with (Chat.run w (Chat.OpSend None) s).
  destruct (writes_ignore_token w s) as [_ [_ [_ H]]].
  exact (proj1 (H None Ha Hw)).
Qed.

Lemma empty_suggestion_submits_draft_witness :
  hd_error (requests (snd (Chat.run servedWorld (Chat.OpSend (Some [])) chatting)))
  = Some (POST_message sampleToken (Some 7) (lit "Hello")).
Proof.
  apply (proj2 (empty_suggestion_submits_draft servedWorld chatting));
    reflexivity.
Defined.



(** One step of a consistent script keeps the active id in the list. *)
Lemma run_keeps_activeListed (w : World) (op : Chat.Op) (s : Chat.State) :
  Chat.offered s op ->
  (Chat.reloads op = true -> Chat.serverKeepsActive w s) ->
  Chat.activeListed s ->
  Chat.activeListed (fst (Chat.run w op s)).
Proof.
  intros Hoff Hsrv Hinv.
  destruct op; cbn [Chat.reloads Chat.offered] in *.
  - specialize (Hsrv eq_refl).
    pose proof (fetchConversations_activeListed s s w eq_refl Hsrv Hinv) as H.
    unfold Chat.run, Chat.handler.
    destruct (Chat.fetchConversations s w s) as [[u s1] t1]. exact H.
  - pose proof (fetchSuggestions_activeListed s w Hinv) as H.
    unfold Chat.run, Chat.handler.
    destruct (Chat.fetchSuggestions w s) as [[u s1] t1]. exact H.
  - intros cid E. cbn in *. injection E as <-. now apply in_map.
  - destruct (delivered (createResponse w)) as [c|] eqn:Hd.
    + rewrite (createNewConversation_delivered w s c Hd).
      intros cid E. cbn in *. injection E as <-. now left.
    + rewrite (proj1 (createNewConversation_not_delivered w s Hd)). exact Hinv.
  - exact Hinv.
  - exact Hinv.
  - unfold Chat.run, Chat.handler, Chat.saveTitle.
    destruct (truthyId (Chat.editingConversationId s)); [|exact Hinv].
    destruct (patchResponse w) as [|[|] b]; try exact Hinv.
    intros cid E. cbn in *. rewrite map_id_withTitle. now apply Hinv.
  - exact Hinv.
  - destruct (confirm w) eqn:Hc.
    2:{ unfold Chat.run, Chat.handler, Chat.deleteConversation.
        rewrite Hc. exact Hinv. }
    destruct (accepted (deleteResponse w)) eqn:Ha.
    2:{ rewrite (proj1 (deleteConversation_not_accepted w s id Hc Ha)).
        exact Hinv. }
    rewrite (deleteConversation_accepted w s id Hc Ha). cbv zeta. cbn [fst].
    destruct (strictEqId (Chat.currentConversationId s) id) eqn:Q.
    + intros cid E. discriminate.
    + intros cid E. cbn in *. apply in_map_iff.
      destruct (proj1 (in_map_iff _ _ _) (Hinv cid E)) as [c [Ec Hin]].
      exists c. split; [exact Ec|]. apply filter_In. split; [exact Hin|].
      rewrite negb_true_iff, Z.eqb_neq. intros Eid.
      rewrite E in Q. cbn in Q. apply Z.eqb_neq in Q. congruence.
  - exact Hinv.
  - specialize (Hsrv eq_refl).
    set (content := orString suggestionContent (Chat.input s)).
    destruct (whitespaceOnly content) eqn:Hw.
    { rewrite (send_noop_guard w s suggestionContent (or_introl Hw)).
      exact Hinv. }
    destruct (Chat.hasActive s) eqn:Ha.
    2:{ rewrite (send_noop_guard w s suggestionContent (or_intror Ha)).
        exact Hinv. }
    unfold Chat.run, Chat.handler.
    destruct (delivered (messageResponse w)) as [reply|] eqn:Hd.
    + rewrite (sendMessage_delivered w s suggestionContent reply Hw Ha Hd).
      match goal with
      | |- context [Chat.fetchConversations s w ?st] => set (sent := st)
      end.
      assert (H1 : Chat.activeListed
                     (finalState (Chat.fetchConversations s w sent))).
      { apply fetchConversations_activeListed; [reflexivity| |].
        - intros data cid Hl E. exact (Hsrv data cid Hl E).
        - eapply activeListed_ext; [| |exact Hinv]; reflexivity. }
      destruct (Chat.fetchConversations s w sent) as [[u1 s1] t1].
      pose proof (fetchSuggestions_activeListed s1 w H1) as H2.
      destruct (Chat.fetchSuggestions w s1) as [[u2 s2] t2].
      eapply activeListed_ext; [| |exact H2]; reflexivity.
    + destruct (sendMessage_not_delivered w s suggestionContent Hw Ha Hd)
        as [tr [E _]].
      rewrite E. eapply activeListed_ext; [| |exact Hinv]; reflexivity.
Qed.

Lemma run_keeps_loading_clear (w : World) (op : Chat.Op) (s : Chat.State) :
  Chat.loading s = false -> Chat.loading (fst (Chat.run w op s)) = false.
Proof.
  intros Hl. destruct op; run_cases; cbn; auto.
Qed.

(** X28.  Every state the page reaches is well formed, as long as the
    server never drops the active conversation from a list it delivers:
    starting from the state the mount effect leaves, whatever the server
    answered to it, after any script of operations each offered by the page,
    the active id if non-null names an element of the list and the pending
    flag is clear. *)
Theorem reachable_states_well_formed (w0 : World)
        (script : list (World * Chat.Op)) :
  let mounted := finalState (ChatView.mount w0 Chat.initial) in
  consistentScript script mounted ->
  Chat.activeListed (fst (Chat.runAll script mounted))
  /\ Chat.loading (fst (Chat.runAll script mounted)) = false.
Proof.
  intros mounted.
  assert (H0 : Chat.activeListed mounted /\ Chat.loading mounted = false).
  { subst mounted. unfold ChatView.mount, bind.
    assert (Hinit : Chat.activeListed Chat.initial)
      by (intros cid E; discriminate).
    assert (Hk : Chat.serverKeepsActive w0 Chat.initial)
      by (intros data cid _ E; discriminate).
    pose proof (fetchConversations_activeListed Chat.initial Chat.initial w0
                  eq_refl Hk Hinit) as H1.
    pose proof (run_keeps_loading_clear w0 Chat.OpLoad Chat.initial eq_refl)
      as L1.
    unfold Chat.run, Chat.handler in L1.
    destruct (Chat.fetchConversations Chat.initial w0 Chat.initial)
      as [[[] s1] t1].
    pose proof (fetchSuggestions_activeListed s1 w0 H1) as H2.
    pose proof (run_keeps_loading_clear w0 Chat.OpRefreshSuggestions s1 L1)
      as L2.
    unfold Chat.run, Chat.handler in L2.
    destruct (Chat.fetchSuggestions w0 s1) as [[[] s2] t2].
    split; [exact H2|exact L2]. }
  destruct H0 as [Hinv Hl]. revert Hinv Hl. generalize mounted.
  induction script as [|[w op] rest IH]; intros s Hinv Hl Hc.
  - split; assumption.
  - cbn [consistentScript] in Hc. destruct Hc as [Hoff [Hsrv Hrest]].
    cbn [Chat.runAll].
    pose proof (run_keeps_activeListed w op s Hoff Hsrv Hinv) as H1.
    pose proof (run_keeps_loading_clear w op s Hl) as L1.
    destruct (Chat.run w op s) as [s1 t1]. cbn [fst] in *.
    specialize (IH s1 H1 L1 Hrest).
    destruct (Chat.runAll rest s1) as [s2 t2]. exact IH.
Qed.

Lemma reachable_states_well_formed_witness :
  Chat.activeListed
    (fst (Chat.runAll [(servedWorld, Chat.OpSelect conv8);
                       (servedWorld, Chat.OpDelete 8);
                       (servedWorld, Chat.OpCreate)]
            (finalState (ChatView.mount servedWorld Chat.initial)))).
Proof.
  apply (reachable_states_well_formed servedWorld
           [(servedWorld, Chat.OpSelect conv8);
            (servedWorld, Chat.OpDelete 8);
            (servedWorld, Chat.OpCreate)]).
  cbn [consistentScript].
  split; [right; left; reflexivity|]. split; [discriminate|].
  split; [exact I|]. split; [discriminate|].
  split; [exact I|]. split; [discriminate|]. exact I.
Defined.
